(** * StackHut run command: the invocation bridge

    A shallow embedding of [stackhut/commands/run_command.py]
    ([RunCmd.run] with its nested functions [_startup], [gen_id],
    [_make_json_rpc], [_shutdown] and [_run_ext]) and the properties of
    the bridge that the specification states about it.

    Layout:
    - [PyValue]   : JSON values as [json.loads] yields them, [str()] on them,
                    dictionaries, [uuid.uuid4];
    - [Effects]   : the world the command acts on (file system, store,
                    entropy) and the state-and-exception monad;
    - [RunCommand]: the source, function by function;
    - [Properties], [Scenario]: the notions the statements use and a
                    concrete service to run the model on;
    - [Coverage]: further notions for the properties beyond the
                    specification's;
    - the theorems, component by component. *)

From Stdlib Require Import ZArith NArith List String Ascii Bool Lia.
From stdpp Require Import base option gmap strings list.

Set Warnings "-register-all".

Local Open Scope string_scope.
Local Open Scope Z_scope.

(* ===================================================================== *)
(** * Python values *)
(* ===================================================================== *)

Module PyValue.

(** What [json.loads] returns.  Integer literals come back as [int];
    non-integer numbers (Python [float]) are outside this model.  An
    object is a [dict]; it is kept as an association list in insertion
    order, each key at most once. *)
Inductive json : Type :=
| JNull
| JBool (b : bool)
| JInt (n : Z)
| JStr (s : string)
| JArr (items : list json)
| JObj (fields : list (string * json)).

(** ** Dictionaries *)

Section Dict.
Context {V : Type}.

(** [d[k]], [None] standing for [KeyError]. *)
Fixpoint dict_get (k : string) (d : list (string * V)) : option V :=
  match d with
  | [] => None
  | (k', v) :: rest => if String.eqb k k' then Some v else dict_get k rest
  end.

(** [k in d] *)
Definition dict_has (k : string) (d : list (string * V)) : bool :=
  match dict_get k d with Some _ => true | None => false end.

(** [d[k] = v]: an existing key keeps its place, a new one goes last. *)
Fixpoint dict_set (k : string) (v : V) (d : list (string * V))
  : list (string * V) :=
  match d with
  | [] => [(k, v)]
  | (k', v') :: rest =>
      if String.eqb k k' then (k, v) :: rest
      else (k', v') :: dict_set k v rest
  end.

End Dict.

(** ** Strings *)

(** [s.find(c)] for a one-character needle: the index of the first
    occurrence, or [-1]. *)
Fixpoint str_find_from (c : ascii) (s : string) (i : Z) : Z :=
  match s with
  | EmptyString => -1
  | String a rest => if Ascii.eqb a c then i else str_find_from c rest (i + 1)
  end.

Definition str_find (c : ascii) (s : string) : Z := str_find_from c s 0.

(** The number of occurrences of [c] in [s] ([s.count(c)]). *)
Fixpoint str_count (c : ascii) (s : string) : nat :=
  match s with
  | EmptyString => O
  | String a rest => (if Ascii.eqb a c then 1 else 0)%nat + str_count c rest
  end.

(** [needle in s] *)
Fixpoint str_contains (needle s : string) : bool :=
  String.prefix needle s
  || match s with
     | EmptyString => false
     | String _ rest => str_contains needle rest
     end.

(** [sep.join(parts)] *)
Fixpoint str_join (sep : string) (parts : list string) : string :=
  match parts with
  | [] => ""
  | [p] => p
  | p :: rest => p +:+ sep +:+ str_join sep rest
  end.

(** ** Decimal and hexadecimal digits *)

Definition digit_char (d : N) : ascii :=
  ascii_of_N (if (d <? 10)%N then 48 + d else 87 + d)%N.

(** The decimal digits of [n], most significant first; [fuel] bounds the
    number of digits. *)
Fixpoint dec_digits (fuel : nat) (n : N) (acc : string) : string :=
  match fuel with
  | O => acc
  | S fuel' =>
      let acc' := String (digit_char (n mod 10)) acc in
      if (n / 10 =? 0)%N then acc' else dec_digits fuel' (n / 10) acc'
  end.

Definition N_str (n : N) : string := dec_digits (S (N.to_nat (N.log2 n))) n "".

(** [str(n)] for an [int]. *)
Definition int_str (n : Z) : string :=
  if n <? 0 then String "-" (N_str (Z.to_N (- n))) else N_str (Z.to_N n).

(** ** [repr] and [str] *)

Section Repr.
(** [repr] of a [str]: the quoting and escaping rules follow the Unicode
    tables of the interpreter, so it is left to the runtime. *)
Variable repr_str : string -> string.

Fixpoint py_repr (j : json) : string :=
  match j with
  | JNull => "None"
  | JBool true => "True"
  | JBool false => "False"
  | JInt n => int_str n
  | JStr s => repr_str s
  | JArr items => "[" +:+ str_join ", " (map py_repr items) +:+ "]"
  | JObj fields =>
      "{" +:+ str_join ", "
                (map (fun kv => match kv with
                                | (k, v) => repr_str k +:+ ": " +:+ py_repr v
                                end) fields) +:+ "}"
  end.

(** [str(x)]: a [str] is returned as it is, anything else through its
    [repr]. *)
Definition py_str (j : json) : string :=
  match j with
  | JStr s => s
  | _ => py_repr j
  end.
End Repr.

(** [a == b] for a parsed value against an [int] constant.  [bool] is a
    subclass of [int] ([True == 1]). *)
Definition eq_int (a : json) (n : Z) : bool :=
  match a with
  | JInt m => m =? n
  | JBool b => (if b then 1 else 0) =? n
  | _ => false
  end.

(** ** [uuid.uuid4] *)

(** [UUID(bytes=os.urandom(16), version=4).int]: the variant and version
    bits are forced on the 128 random bits. *)
Definition uuid4_int (random : N) : N :=
  let i := (random mod 2 ^ 128)%N in
  let i := N.ldiff i (N.shiftl 0xc000 48) in
  let i := N.lor i (N.shiftl 0x8000 48) in
  let i := N.ldiff i (N.shiftl 0xf000 64) in
  N.lor i (N.shiftl 4 76).

(** ['%032x' % i]: digit [k] counted from the most significant of 32. *)
Definition hex_digit_at (i : N) (k : nat) : ascii :=
  digit_char (N.shiftr i (4 * N.of_nat (31 - k)%nat) mod 16)%N.

Definition hex32 (i : N) : list ascii := map (hex_digit_at i) (seq 0 32).

Definition string_of_chars (l : list ascii) : string :=
  fold_right String EmptyString l.

(** [str(uuid)]: 8-4-4-4-12 hexadecimal digits. *)
Definition uuid_str (i : N) : string :=
  let h := hex32 i in
  let part (a b : nat) := firstn (b - a) (skipn a h) in
  let dash := ["-"%char] in
  string_of_chars
    (part 0 8 ++ dash ++ part 8 12 ++ dash ++ part 12 16
       ++ dash ++ part 16 20 ++ dash ++ part 20 32)%nat%list.

End PyValue.

(* ===================================================================== *)
(** * The world and the effects of the command *)
(* ===================================================================== *)

Module Effects.
Import PyValue.

(** ** Exceptions *)

(** A text as [json.loads] sees it: one that it rejects, or the document
    of a value.  [json.dumps] goes the other way. *)
Inductive document : Type :=
| Garbled (text : string)
| Document (value : json).

Inductive exn : Type :=
| ParseError                                            (* utils.ParseError *)
| NonZeroExitError (returncode : Z) (stdout : option string)
| ServerError (code : json) (msg : json)                (* utils.ServerError *)
| TypeError
| KeyError (key : string)
| AttributeError (name : string)
| ValueError                                            (* json.loads *)
| FileNotFoundError (path : string)
| FileExistsError (path : string)
| IsADirectoryError (path : string)
| NotADirectoryError (path : string)
| StoreError                                            (* raised by the store *)
| SystemExit (status : Z).

(** [except Exception] lets [SystemExit] through. *)
Definition is_Exception (e : exn) : bool :=
  match e with
  | SystemExit _ => false
  | _ => true
  end.

Definition json_loads (d : document) : option json :=
  match d with
  | Garbled _ => None
  | Document v => Some v
  end.

Definition json_dumps (v : json) : document := Document v.

(** ** The file system *)

(** The file system is a finite map from paths to what they hold.  A path
    is the key as the program writes it: names are not resolved, so the
    map stands for the disk on paths in normal form (no empty, [.] or
    [..] component and no trailing slash) that are all written from the
    working directory or all from the root, which is what the command
    makes of its constants and of a plain task id.  Symbolic links are
    not modelled. *)
Inductive node : Type := File | Fifo | Dir.

(** The calls that change the file system, kept as a log beside it. *)
Inductive syscall : Type :=
| SysRemove (path : string)
| SysMkfifo (path : string)
| SysMkdir (path : string)
| SysCreat (path : string).

#[global] Instance node_eq_dec : EqDecision node.
Proof. solve_decision. Defined.

#[global] Instance syscall_eq_dec : EqDecision syscall.
Proof. solve_decision. Defined.

(** ** The store (stackhut.utils.LocalStore / CloudStore) *)

(** Modelled from the spec: the Store collaborator of section 6, with
    [getRequest() -> string], [setTaskId(id)], [putResponse(json)] and
    [putFile(path)] (the classes [LocalStore] and [CloudStore] of
    [stackhut.utils]).  [request = None] is a store that cannot deliver
    the request. *)
Record Store : Type := mkStore {
  request : option document;
  task_id : option json;
  response : option document;
  files : list string
}.

(** ** The world *)

Record World : Type := mkWorld {
  fs : gmap string node;
  store : Store;
  draws : nat;                 (* uuids drawn so far *)
  syslog : list syscall        (* oldest first *)
}.

Definition with_fs (w : World) (f : gmap string node) (c : syscall) : World :=
  {| fs := f; store := store w; draws := draws w; syslog := syslog w ++ [c] |}.

Definition with_store (w : World) (s : Store) : World :=
  {| fs := fs w; store := s; draws := draws w; syslog := syslog w |}.

(** ** State and exceptions *)

Inductive Result (A : Type) : Type :=
| Ok (a : A)
| Raise (e : exn).
Arguments Ok {A} a.
Arguments Raise {A} e.

(** A statement runs in a world and leaves a world, whether it returns or
    raises. *)
Definition M (A : Type) : Type := World -> Result A * World.

#[global] Instance M_ret : MRet M := fun A a w => (Ok a, w).

#[global] Instance M_bind : MBind M := fun A B f m w =>
  match m w with
  | (Ok a, w') => f a w'
  | (Raise e, w') => (Raise e, w')
  end.

Definition raise {A : Type} (e : exn) : M A := fun w => (Raise e, w).

(** [try: body / except Exception as e: handler(e)] *)
Definition try_except {A : Type} (body : M A) (handler : exn -> M A) : M A :=
  fun w =>
    match body w with
    | (Raise e, w') => if is_Exception e then handler e w' else (Raise e, w')
    | r => r
    end.

(** [try: body / except: handler] (a bare except catches everything) *)
Definition try_except_all {A : Type} (body : M A) (handler : M A) : M A :=
  fun w =>
    match body w with
    | (Raise _, w') => handler w'
    | r => r
    end.

(** [try: body / finally: final].  An exception of [final] replaces the
    outcome of [body]. *)
Definition try_finally {A : Type} (body : M A) (final : M unit) : M A :=
  fun w =>
    match body w with
    | (r, w') =>
        match final w' with
        | (Ok _, w'') => (r, w'')
        | (Raise e, w'') => (Raise e, w'')
        end
    end.

(** [for x in l] collecting results, as a list comprehension does. *)
Fixpoint mapM {A B : Type} (f : A -> M B) (l : list A) : M (list B) :=
  match l with
  | [] => mret []
  | x :: rest => y ← f x; ys ← mapM f rest; mret (y :: ys)
  end.

(** ** [os] and [os.path] *)

(** [s.endswith('/')] *)
Fixpoint ends_with_slash (s : string) : bool :=
  match s with
  | EmptyString => false
  | String c EmptyString => Ascii.eqb c "/"
  | String _ rest => ends_with_slash rest
  end.

(** [os.path.join(a, b)] (posixpath) *)
Definition os_path_join (a b : string) : string :=
  match b with
  | String "/" _ => b
  | _ => if orb (String.eqb a "") (ends_with_slash a) then a +:+ b
         else a +:+ "/" +:+ b
  end.

(** [p[:p.rfind('/')]], [None] when [p] has no slash. *)
Fixpoint before_last_slash (p : string) : option string :=
  match p with
  | EmptyString => None
  | String c rest =>
      match before_last_slash rest with
      | Some h => Some (String c h)
      | None => if Ascii.eqb c "/" then Some EmptyString else None
      end
  end.

(** [s.rstrip('/')] *)
Fixpoint rstrip_slash (s : string) : string :=
  match s with
  | EmptyString => EmptyString
  | String c rest =>
      match rstrip_slash rest with
      | EmptyString => if Ascii.eqb c "/" then EmptyString else String c EmptyString
      | r => String c r
      end
  end.

(** The directory a new entry [p] goes into; [""] is the working
    directory or the root, which are there. *)
Definition parent_dir (p : string) : string :=
  match before_last_slash p with
  | Some h => rstrip_slash h
  | None => EmptyString
  end.

Definition has_parent (f : gmap string node) (p : string) : bool :=
  if String.eqb (parent_dir p) "" then true
  else bool_decide (f !! parent_dir p = Some Dir).

(** What a call that makes the entry [p] raises when [has_parent] fails:
    [ENOENT] for a parent that is not there, [ENOTDIR] for one that is no
    directory. *)
Definition parent_error (f : gmap string node) (p : string) : exn :=
  match f !! parent_dir p with
  | None => FileNotFoundError p
  | Some _ => NotADirectoryError p
  end.

(** [os.path.exists(p)] *)
Definition os_path_exists (p : string) : M bool :=
  fun w => (Ok (bool_decide (is_Some (fs w !! p))), w).

(** [os.remove(p)] *)
Definition os_remove (p : string) : M unit :=
  fun w =>
    match fs w !! p with
    | None => (Raise (FileNotFoundError p), w)
    | Some Dir => (Raise (IsADirectoryError p), w)
    | Some _ => (Ok tt, with_fs w (delete p (fs w)) (SysRemove p))
    end.

(** [os.mkfifo(p)] *)
Definition os_mkfifo (p : string) : M unit :=
  fun w =>
    match fs w !! p with
    | Some _ => (Raise (FileExistsError p), w)
    | None =>
        if has_parent (fs w) p
        then (Ok tt, with_fs w (<[p := Fifo]> (fs w)) (SysMkfifo p))
        else (Raise (parent_error (fs w) p), w)
    end.

(** [os.mkdir(p)] *)
Definition os_mkdir (p : string) : M unit :=
  fun w =>
    match fs w !! p with
    | Some _ => (Raise (FileExistsError p), w)
    | None =>
        if has_parent (fs w) p
        then (Ok tt, with_fs w (<[p := Dir]> (fs w)) (SysMkdir p))
        else (Raise (parent_error (fs w) p), w)
    end.

(** [open(p, "w")]: an absent path becomes a regular file. *)
Definition open_w (p : string) : M unit :=
  fun w =>
    match fs w !! p with
    | Some Dir => (Raise (IsADirectoryError p), w)
    | Some _ => (Ok tt, w)
    | None =>
        if has_parent (fs w) p
        then (Ok tt, with_fs w (<[p := File]> (fs w)) (SysCreat p))
        else (Raise (parent_error (fs w) p), w)
    end.

(** [open(p, "r")] *)
Definition open_r (p : string) : M unit :=
  fun w =>
    match fs w !! p with
    | Some Dir => (Raise (IsADirectoryError p), w)
    | Some _ => (Ok tt, w)
    | None => (Raise (FileNotFoundError p), w)
    end.

(** ** The store's methods *)

(** Modelled from the spec: [getRequest() -> string] hands over the
    inbound payload, or fails when there is none to hand over. *)
Definition store_get_request : M document :=
  fun w =>
    match request (store w) with
    | Some d => (Ok d, w)
    | None => (Raise StoreError, w)
    end.

(** Modelled from the spec: [setTaskId(id)] records the task id. *)
Definition store_set_task_id (id : json) : M unit :=
  fun w =>
    let s := store w in
    (Ok tt, with_store w {| request := request s; task_id := Some id;
                            response := response s; files := files s |}).

(** Modelled from the spec: [putResponse(json)] keeps the response. *)
Definition store_put_response (d : document) : M unit :=
  fun w =>
    let s := store w in
    (Ok tt, with_store w {| request := request s; task_id := task_id s;
                            response := Some d; files := files s |}).

(** Modelled from the spec: [putFile(path)] keeps the named file. *)
Definition store_put_file (p : string) : M unit :=
  fun w =>
    let s := store w in
    (Ok tt, with_store w {| request := request s; task_id := task_id s;
                            response := response s; files := files s ++ [p] |}).

End Effects.

(* ===================================================================== *)
(** * stackhut/commands/run_command.py *)
(* ===================================================================== *)

Module RunCommand.
Import PyValue Effects.

(** ** What the module imports *)

(** [subprocess]: how a stream of the child is wired. *)
Inductive redirect : Type := PIPE | STDOUT | DEVNULL.

(** One run of the shim process, as the parent can observe it: the
    document it writes on the response channel, its exit status, and what
    it prints on standard output with standard error merged in. *)
Record Completed : Type := mkCompleted {
  reply : document;
  exit_status : Z;
  printed : string
}.

(** The [Popen] object after [wait()].  Its [stdout] attribute is a stream
    only when the child was started with [stdout=PIPE], and [None]
    otherwise. *)
Record Popen : Type := mkPopen {
  returncode : Z;
  stdout : option string
}.

Definition subprocess_Popen (stdout_arg stderr_arg : option redirect)
    (c : Completed) : Popen :=
  {| returncode := exit_status c;
     stdout := match stdout_arg with
               | Some PIPE => Some (printed c)
               | _ => None
               end |}.

(** The interpreter, the operating system and the constants of
    [stackhut.utils] and [stackhut.barrister] that the command reads. *)
Record Env : Type := mkEnv {
  repr_str : string -> string;          (* repr() of a str *)
  urandom : nat -> N;                   (* the n-th os.urandom(16) *)
  shim_run : list string -> json -> Completed;
                                        (* the shim, run on a request *)
  LOGFILE : string;                     (* utils.LOGFILE *)
  STACKHUT_DIR : string;                (* utils.STACKHUT_DIR *)
  ERR_METHOD_NOT_FOUND : Z              (* barrister.ERR_METHOD_NOT_FOUND *)
}.

(** [self.stack], an entry of [primitives.stacks]. *)
Record Stack : Type := mkStack {
  shim_cmd : list string;
  copy_shim : M unit;
  del_shim : M unit
}.

(** The callback handed to the dispatcher: [_run_ext]. *)
Definition Callback : Type := string -> json -> string -> M json.

(** [self]: the stack and [self.server.call]. *)
Record RunCmd : Type := mkRunCmd {
  stack : Stack;
  server_call : json -> Callback -> M json
}.

(* Module Consts *)
Definition REQ_FIFO : string := "req.json".
Definition RESP_FIFO : string := "resp.json".

(** ** Operators on parsed values *)

(** [k in x] *)
Definition py_in (k : string) (x : json) : M bool :=
  match x with
  | JObj d => mret (dict_has k d)
  | JArr l => mret (existsb (fun y => match y with
                                      | JStr s => String.eqb s k
                                      | _ => false
                                      end) l)
  | JStr s => mret (str_contains k s)
  | _ => raise TypeError
  end.

(** [x[k]] for a string [k] *)
Definition subscript (x : json) (k : string) : M json :=
  match x with
  | JObj d => match dict_get k d with
              | Some v => mret v
              | None => raise (KeyError k)
              end
  | _ => raise TypeError
  end.

(** [x[k] = v] for a string [k]; the container is returned updated. *)
Definition setitem (x : json) (k : string) (v : json) : M json :=
  match x with
  | JObj d => mret (JObj (dict_set k v d))
  | _ => raise TypeError
  end.

(** [x.find(c)] *)
Definition find_method (x : json) (c : ascii) : M Z :=
  match x with
  | JStr s => mret (str_find c s)
  | _ => raise (AttributeError "find")
  end.

Section Run.
Variable env : Env.
Variable self : RunCmd.

(** [str(uuid.uuid4())] *)
Definition fresh_uuid : M string :=
  fun w =>
    (Ok (uuid_str (uuid4_int (urandom env (draws w)))),
     {| fs := fs w; store := store w; draws := S (draws w);
        syslog := syslog w |}).

(** ** [_startup] *)

(** Lines 62-63.
<<
    def gen_id(d, v):
        d[v] = str(uuid.uuid4()) if v not in d else str(d[v])
>>
    The function returns nothing and changes [d]; here the changed [d] is
    what comes back. *)
Definition gen_id (d : json) (v : string) : M json :=
  present ← py_in v d;
  s ← (if negb present then fresh_uuid
       else x ← subscript d v; mret (py_str (repr_str env) x));
  setitem d v (JStr s).

Definition default_service : string := "Default".

(** Lines 70-76.
<<
    def _make_json_rpc(req):
        if 'jsonrpc' not in req: req['jsonrpc'] = "2.0"
        gen_id(req, 'id')
        if req['method'].find('.') < 0:
            req['method'] = "{}.{}".format(default_service, req['method'])
        return req
>> *)
Definition _make_json_rpc (req : json) : M json :=
  present ← py_in "jsonrpc" req;
  req ← (if negb present then setitem req "jsonrpc" (JStr "2.0") else mret req);
  req ← gen_id req "id";
  m ← subscript req "method";
  i ← find_method m ".";
  if i <? 0 then
    m ← subscript req "method";
    setitem req "method"
      (JStr (default_service +:+ "." +:+ py_str (repr_str env) m))
  else mret req.

(** Lines 79-83: [req] is one request or a list of them. *)
Definition normalize_reqs (reqs : json) : M json :=
  match reqs with
  | JArr l => l' ← mapM _make_json_rpc l; mret (JArr l')
  | _ => _make_json_rpc reqs
  end.

(** [os.remove(p) if os.path.exists(p) else None] *)
Definition remove_if_exists (p : string) : M unit :=
  e ← os_path_exists p;
  if e : bool then os_remove p else mret tt.

(** Lines 48-93.  [shim_server.init] and the logging calls act on nothing
    that is modelled here. *)
Definition _startup : M json :=
  input_json ← try_except_all
                 (in_str ← store_get_request;
                  match json_loads in_str with
                  | Some j => mret j
                  | None => raise ValueError
                  end)
                 (raise ParseError);
  input_json ← gen_id input_json "id";
  id ← subscript input_json "id";
  store_set_task_id id;;
  has_req ← py_in "req" input_json;
  reqs ← (if has_req : bool then
            reqs ← subscript input_json "req";
            normalize_reqs reqs
          else raise ParseError);
  remove_if_exists REQ_FIFO;;
  remove_if_exists RESP_FIFO;;
  os_mkfifo REQ_FIFO;;
  os_mkfifo RESP_FIFO;;
  copy_shim (stack self);;
  mret reqs.

(** ** [_shutdown], lines 97-102 *)
Definition _shutdown (res : json) : M unit :=
  store_put_response (json_dumps res);;
  store_put_file (LOGFILE env).

(** ** [_run_ext] *)

(** Lines 108-109: the directory that holds the output of the task. *)
Definition ensure_req_path (req_id : string) : M unit :=
  let req_path := os_path_join (STACKHUT_DIR env) req_id in
  e ← os_path_exists req_path;
  if negb e then os_mkdir req_path else mret tt.

(** Lines 126-138: what is made of the exit status and the response. *)
Definition check_response (method : string) (p : Popen) (resp : json)
  : M json :=
  if negb (returncode p =? 0) then
    raise (NonZeroExitError (returncode p) (stdout p))
  else
    has_error ← py_in "error" resp;
    if has_error : bool then
      code ← subscript resp "error";
      if eq_int code (ERR_METHOD_NOT_FOUND env) then
        raise (ServerError code
                 (JStr ("Method or service " +:+ method +:+ " not found")))
      else
        msg ← subscript resp "msg";
        raise (ServerError code msg)
    else subscript resp "result".

(** Lines 104-138.  The child is started with
    [Popen(shim_cmd, shell=False, stderr=subprocess.STDOUT)] and no
    [stdout] argument, and is taken to start; it takes the request from
    the request channel and answers on the response channel. *)
Definition _run_ext (method : string) (params : json) (req_id : string)
  : M json :=
  ensure_req_path req_id;;
  let req := JObj [("method", JStr method); ("params", params);
                   ("req_id", JStr req_id)] in
  let child := shim_run env (shim_cmd (stack self)) req in
  let p := subprocess_Popen None (Some STDOUT) child in
  open_w REQ_FIFO;;
  open_r RESP_FIFO;;
  resp ← match json_loads (reply child) with
         | Some j => mret j
         | None => raise ValueError
         end;
  check_response method p resp.

(** ** [RunCmd.run] *)

(** The [finally] block, lines 148-153. *)
Definition cleanup : M unit :=
  del_shim (stack self);;
  os_remove REQ_FIFO;;
  os_remove RESP_FIFO;;
  os_remove (LOGFILE env).

(** [exit(1)] *)
Definition exit {A : Type} (status : Z) : M A := raise (SystemExit status).

(** Lines 140-157.  [super().run()] on line 45 acts on nothing that is
    modelled here. *)
Definition run : M Z :=
  try_finally
    (try_except
       (reqs ← _startup;
        resp ← server_call self reqs _run_ext;
        _shutdown resp)
       (fun _ : exn => exit 1))
    cleanup;;
  mret 0.

End Run.

End RunCommand.

(* ===================================================================== *)
(** * Notions the properties are stated with *)
(* ===================================================================== *)

Module Properties.
Import PyValue Effects RunCommand.

(** The value has a field [k]: it is an object with that key. *)
Definition has_field (k : string) (x : json) : bool :=
  match x with
  | JObj d => dict_has k d
  | _ => false
  end.

(** The fields that normalization may touch. *)
Definition envelope_keys : list string := ["jsonrpc"; "id"; "method"].

(** [b] is the object [a] with at most the envelope fields changed. *)
Definition same_payload (a b : json) : Prop :=
  exists da db,
    a = JObj da /\ b = JObj db /\
    forall k, ~ In k envelope_keys -> dict_get k db = dict_get k da.

(** The shape of a [req] value and of its normalization: one object for
    one object, and for a sequence a sequence with the elements in the
    same places. *)
Definition same_shape (reqs out : json) : Prop :=
  match reqs with
  | JArr l => exists l', out = JArr l' /\ Forall2 same_payload l l'
  | _ => same_payload reqs out
  end.

(** An element that normalization accepts: an object whose method is a
    string. *)
Definition is_request (x : json) : Prop :=
  exists d m, x = JObj d /\ dict_get "method" d = Some (JStr m).

Definition is_req_value (reqs : json) : Prop :=
  match reqs with
  | JArr l => Forall is_request l
  | _ => is_request reqs
  end.

(** A method field holding the string [m]. *)
Definition method_of (x : json) : option string :=
  match x with
  | JObj d => match dict_get "method" d with
              | Some (JStr m) => Some m
              | _ => None
              end
  | _ => None
  end.

(** An id field holding the string [s]. *)
Definition id_of (x : json) : option string :=
  match x with
  | JObj d => match dict_get "id" d with
              | Some (JStr s) => Some s
              | _ => None
              end
  | _ => None
  end.

(** The raw value under [k], if the value is an object that has one. *)
Definition field (k : string) (x : json) : option json :=
  match x with
  | JObj d => dict_get k d
  | _ => None
  end.

(** The number of namespace separators of a method name. *)
Definition separators (m : string) : nat := str_count "." m.

(** The method name that lines 74-75 leave for a raw name [m]. *)
Definition qualified (m : string) : string :=
  if str_find "." m <? 0 then "Default." +:+ m else m.

Section Calls.
Variable env : Env.
Variable self : RunCmd.

(** The world after one more identifier was drawn, and that identifier. *)
Definition drawn (w : World) : World :=
  {| fs := fs w; store := store w; draws := S (draws w); syslog := syslog w |}.

Definition next_uuid (w : World) : string :=
  uuid_str (uuid4_int (urandom env (draws w))).

(** The identifier that [gen_id] leaves under ["id"]: the string form of
    the one that is there, or the next one drawn. *)
Definition ident_for (d : list (string * json)) (w : World) : string :=
  match dict_get "id" d with
  | Some v => py_str (repr_str env) v
  | None => next_uuid w
  end.

(** The nested calls of one task, one after the other; the dispatcher
    takes each outcome, result or error, and goes on. *)
Fixpoint nested_calls (req_id : string) (calls : list (string * json))
    (w : World) : World :=
  match calls with
  | [] => w
  | (method, params) :: rest =>
      nested_calls req_id rest (_run_ext env self method params req_id w).2
  end.

(** The request object of a nested call, line 112. *)
Definition shim_request (method : string) (params : json) (req_id : string)
  : json :=
  JObj [("method", JStr method); ("params", params); ("req_id", JStr req_id)].

(** The run of the shim that answers a nested call, and the [Popen]
    object the forwarder holds for it, line 115. *)
Definition child (method : string) (params : json) (req_id : string)
  : Completed :=
  shim_run env (shim_cmd (stack self)) (shim_request method params req_id).

Definition popen (method : string) (params : json) (req_id : string)
  : Popen :=
  subprocess_Popen None (Some STDOUT) (child method params req_id).

(** The path of the task directory, line 108. *)
Definition req_path_of (req_id : string) : string :=
  os_path_join (STACKHUT_DIR env) req_id.

(** The three steps of [_run_ext] that come before the response is
    parsed: the task directory and the two channels. *)
Definition handshake (req_id : string) : M unit :=
  ensure_req_path env req_id;;
  open_w REQ_FIFO;;
  open_r RESP_FIFO.

End Calls.

(** The statement [m] does not end in the exception [e], whatever the
    world it runs in. *)
Definition never_raises {A : Type} (e : exn) (m : M A) : Prop :=
  forall w w', m w <> (Raise e, w').

Definition is_remove (c : syscall) : bool :=
  match c with
  | SysRemove _ => true
  | _ => false
  end.

(** The path is there, as [os.path.exists] sees it. *)
Definition present (w : World) (p : string) : Prop := is_Some (fs w !! p).

(** How often the directory [p] was created in a stretch of the log. *)
Definition mkdirs (p : string) (log : list syscall) : nat :=
  count_occ syscall_eq_dec log (SysMkdir p).

(** A stretch of the log without a removal. *)
Definition no_remove (log : list syscall) : Prop :=
  Forall (fun c => is_remove c = false) log.

(** From [w] to [w'] nothing was removed, and the directory [path] was
    created at most once, and only if it was not there. *)
Definition forwards (path : string) (w w' : World) : Prop :=
  exists new,
    syslog w' = (syslog w ++ new)%list /\
    no_remove new /\
    (forall p, present w p -> present w' p) /\
    (mkdirs path new <= 1)%nat /\
    (present w path -> mkdirs path new = O) /\
    (mkdirs path new = 1%nat -> present w' path).

End Properties.

(* ===================================================================== *)
(** * A concrete service to run the model on *)
(* ===================================================================== *)

Module Scenario.
Import PyValue Effects RunCommand.

(** [repr] of a string of printable ASCII with no quote and no backslash. *)
Definition quote (s : string) : string := "'" +:+ s +:+ "'".

(** A shim with five behaviours, chosen by the method. *)
Definition shim (argv : list string) (req : json) : Completed :=
  match req with
  | JObj d =>
      match dict_get "method" d, dict_get "params" d with
      | Some (JStr "Default.echo"), Some (JArr (x :: _)) =>
          {| reply := Document (JObj [("result", x)]);
             exit_status := 0; printed := "" |}
      | Some (JStr "Default.crash"), _ =>
          {| reply := Document (JObj [("error", JInt 99); ("msg", JStr "boom")]);
             exit_status := 2; printed := "Traceback (most recent call last)" |}
      | Some (JStr "Default.fail"), _ =>
          {| reply := Document (JObj [("error", JInt 99); ("msg", JStr "boom")]);
             exit_status := 0; printed := "" |}
      | Some (JStr "Default.bare"), _ =>
          {| reply := Document (JObj [("error", JInt 99)]);
             exit_status := 0; printed := "" |}
      | _, _ =>
          {| reply := Document (JObj [("error", JInt (-32601))]);
             exit_status := 0; printed := "" |}
      end
  | _ => {| reply := Garbled ""; exit_status := 1; printed := "" |}
  end.

Definition env : Env :=
  {| repr_str := quote;
     urandom := fun n => (N.of_nat n * 0x0123456789abcdef0123456789abcdef + 7)%N;
     shim_run := shim;
     LOGFILE := ".stackhut.log";
     STACKHUT_DIR := ".stackhut";
     ERR_METHOD_NOT_FOUND := -32601 |}.

(** A stack with one shim file, whose removal puts up with an absent
    file. *)
Definition python_stack : Stack :=
  {| shim_cmd := ["/usr/bin/python3"; "runner.py"];
     copy_shim := open_w "runner.py";
     del_shim := remove_if_exists "runner.py" |}.

(** A dispatcher for one request object: one nested call, with the id of
    the request as task id. *)
Definition call_once (req : json) (callback : Callback) : M json :=
  m ← subscript req "method";
  params ← subscript req "params";
  id ← subscript req "id";
  match m, id with
  | JStr m, JStr id =>
      r ← callback m params id;
      mret (JObj [("jsonrpc", JStr "2.0"); ("id", JStr id); ("result", r)])
  | _, _ => raise TypeError
  end.

Definition self : RunCmd := {| stack := python_stack; server_call := call_once |}.

Definition inbox (payload : document) : Store :=
  {| request := Some payload; task_id := None; response := None; files := [] |}.

(** A working directory with the log file and the root of the task
    directories. *)
Definition clean_world (payload : document) : World :=
  {| fs := {[ ".stackhut.log" := File; ".stackhut" := Dir ]};
     store := inbox payload; draws := 0; syslog := [] |}.

(** The same with a response channel left behind by an earlier run. *)
Definition stale_world (payload : document) : World :=
  {| fs := {[ ".stackhut.log" := File; ".stackhut" := Dir; "resp.json" := Fifo ]};
     store := inbox payload; draws := 0; syslog := [] |}.

(** The world as [_startup] leaves it: both channels are there. *)
Definition ready_world : World :=
  {| fs := {[ ".stackhut.log" := File; ".stackhut" := Dir;
              "req.json" := Fifo; "resp.json" := Fifo; "runner.py" := File ]};
     store := inbox (Document (JObj [])); draws := 1; syslog := [] |}.

Definition echo_request : json :=
  JObj [("req", JObj [("method", JStr "echo"); ("params", JArr [JStr "hi"])])].

Definition no_req_request : json := JObj [("id", JInt 5)].

End Scenario.

(* ===================================================================== *)
(** * Further notions: frames, fragments of the source, counts *)
(* ===================================================================== *)

Module Coverage.
Import PyValue Effects RunCommand Properties.

(** The statement [m] leaves the part [part] of the world as it found it,
    whether it returns or raises. *)
Definition keeps {A X : Type} (part : World -> X) (m : M A) : Prop :=
  forall w, part (m w).2 = part w.

(** Lines 87-90 of [_startup]: the channels are removed if they are there
    and made anew. *)
Definition recreate_channels : M unit :=
  remove_if_exists REQ_FIFO;;
  remove_if_exists RESP_FIFO;;
  os_mkfifo REQ_FIFO;;
  os_mkfifo RESP_FIFO.

(** The path holds something that [os.remove] takes away. *)
Definition removable (w : World) (p : string) : Prop :=
  fs w !! p <> Some Dir.

Section Normal.
Variable env : Env.
Variable self : RunCmd.

(** What lines 71-75 make of an object [d] whose method is the string
    [m], in the world [w]. *)
Definition normalized (d : list (string * json)) (m : string) (w : World)
  : list (string * json) :=
  let d1 := if dict_has "jsonrpc" d then d
            else dict_set "jsonrpc" (JStr "2.0") d in
  let d2 := dict_set "id" (JStr (ident_for env d w)) d1 in
  if str_find "." m <? 0
  then dict_set "method" (JStr ("Default." +:+ m)) d2
  else d2.

(** The world after [gen_id]: an identifier is drawn only for an object
    that has none. *)
Definition after_id (d : list (string * json)) (w : World) : World :=
  if dict_has "id" d then w else drawn w.

(** Lines 78-93: [_startup] from the [req] test on. *)
Definition startup_tail (input_json : json) : M json :=
  has_req ← py_in "req" input_json;
  reqs ← (if has_req : bool then
            reqs ← subscript input_json "req";
            normalize_reqs env reqs
          else raise ParseError);
  remove_if_exists REQ_FIFO;;
  remove_if_exists RESP_FIFO;;
  os_mkfifo REQ_FIFO;;
  os_mkfifo RESP_FIFO;;
  copy_shim (stack self);;
  mret reqs.

(** The store once [set_task_id] has run on the payload [d]. *)
Definition with_task_id (d : list (string * json)) (w : World) : Store :=
  {| request := request (store w);
     task_id := Some (JStr (ident_for env d w));
     response := response (store w);
     files := files (store w) |}.

(** What the [except] clause of [run] makes of the outcome of the [try]
    block: an [Exception] becomes [exit(1)]. *)
Definition handled (r : Result unit) : Result unit :=
  match r with
  | Ok _ => Ok tt
  | Raise e => if is_Exception e then Raise (SystemExit 1) else Raise e
  end.

(** Lines 142-144: the body of the [try] block of [run]. *)
Definition service : M unit :=
  reqs ← _startup env self;
  resp ← server_call self reqs (_run_ext env self);
  _shutdown env resp.

End Normal.

(** A stack that has nothing to copy or to delete: its shim is part of
    the service directory. *)
Definition resident_stack : Stack :=
  {| shim_cmd := ["/bin/sh"; "shim.sh"];
     copy_shim := mret tt;
     del_shim := mret tt |}.

Definition resident_self : RunCmd :=
  {| stack := resident_stack; server_call := Scenario.call_once |}.

(** A shim with two more behaviours: a child that dies with status 3 and
    leaves half a response, and one that answers with a list. *)
Definition faulty_shim (argv : list string) (req : json) : Completed :=
  match field "method" req with
  | Some (JStr "Default.garbled") =>
      {| reply := Garbled "{'result':";
         exit_status := 3; printed := "Segmentation fault" |}
  | Some (JStr "Default.list") =>
      {| reply := Document (JArr [JStr "ok"]);
         exit_status := 0; printed := "" |}
  | _ => Scenario.shim argv req
  end.

Definition faulty_env : Env :=
  {| repr_str := Scenario.quote;
     urandom := urandom Scenario.env;
     shim_run := faulty_shim;
     LOGFILE := ".stackhut.log";
     STACKHUT_DIR := ".stackhut";
     ERR_METHOD_NOT_FOUND := -32601 |}.




(** The elements of a batch that come without an id. *)
Definition missing_ids (l : list json) : nat :=
  length (List.filter (fun x => negb (has_field "id" x)) l).

(** [n] identifiers drawn. *)
Fixpoint drawn_n (n : nat) (w : World) : World :=
  match n with
  | O => w
  | S n' => drawn_n n' (drawn w)
  end.






End Coverage.

(* ===================================================================== *)
(** * Facts about Python values *)
(* ===================================================================== *)

Module PyFacts.
Import PyValue.

(** ** Dictionaries *)

Section DictFacts.
Context {V : Type}.
Implicit Types (d : list (string * V)) (k : string) (v : V).

Lemma dict_get_set_eq d k v : dict_get k (dict_set k v d) = Some v.
Proof.
  induction d as [|[k' v'] d IH]; simpl.
  - now rewrite String.eqb_refl.
  - destruct (String.eqb k k') eqn:E; simpl; rewrite ?String.eqb_refl, ?E; auto.
Qed.

Lemma dict_get_set_ne d k k' v :
  k <> k' -> dict_get k' (dict_set k v d) = dict_get k' d.
Proof.
  intros Hne. induction d as [|[k0 v0] d IH]; simpl.
  - destruct (String.eqb k' k) eqn:E; [|reflexivity].
    apply String.eqb_eq in E. congruence.
  - destruct (String.eqb k k0) eqn:E; simpl.
    + apply String.eqb_eq in E. subst k0.
      destruct (String.eqb k' k) eqn:E'; [|reflexivity].
      apply String.eqb_eq in E'. congruence.
    + now rewrite IH.
Qed.

Lemma dict_set_same d k v : dict_get k d = Some v -> dict_set k v d = d.
Proof.
  induction d as [|[k' v'] d IH]; simpl; [discriminate|].
  destruct (String.eqb k k') eqn:E.
  - apply String.eqb_eq in E. intros [= ->]. now subst.
  - intros H. now rewrite IH.
Qed.

Lemma dict_set_set d k v v' : dict_set k v (dict_set k v' d) = dict_set k v d.
Proof.
  induction d as [|[k' w] d IH]; simpl.
  - now rewrite String.eqb_refl.
  - destruct (String.eqb k k') eqn:E; simpl; rewrite ?String.eqb_refl, ?E; auto.
    now rewrite IH.
Qed.

Lemma dict_has_get d k : dict_has k d = true <-> exists v, dict_get k d = Some v.
Proof.
  unfold dict_has. destruct (dict_get k d); split; eauto; try discriminate.
  intros [? ?]; discriminate.
Qed.

Lemma dict_has_false d k : dict_has k d = false <-> dict_get k d = None.
Proof. unfold dict_has. destruct (dict_get k d); split; congruence. Qed.

End DictFacts.

(** ** Strings *)

Lemma str_find_from_absent c s i :
  0 <= i -> ((str_find_from c s i <? 0) = true <-> str_count c s = O).
Proof.
  revert i. induction s as [|a s IH]; simpl; intros i Hi.
  - split; [reflexivity | intros _; apply Z.ltb_lt; lia].
  - destruct (Ascii.eqb a c); simpl.
    + split; [rewrite Z.ltb_lt; lia | discriminate].
    + apply IH. lia.
Qed.

(** [s.find(c) < 0] says that [c] does not occur in [s]. *)
Lemma str_find_absent c s : (str_find c s <? 0) = true <-> str_count c s = O.
Proof. apply str_find_from_absent. lia. Qed.

Lemma str_count_app c s t :
  str_count c (s +:+ t) = (str_count c s + str_count c t)%nat.
Proof. induction s as [|a s IH]; simpl; [reflexivity|]. rewrite IH. lia. Qed.

Lemma dec_digits_nonempty fuel n acc :
  acc <> "" -> dec_digits fuel n acc <> "".
Proof.
  revert n acc. induction fuel as [|fuel IH]; simpl; intros n acc Hacc; [easy|].
  destruct (n / 10 =? 0)%N; [discriminate|]. apply IH. discriminate.
Qed.

Lemma N_str_nonempty n : N_str n <> "".
Proof.
  unfold N_str. simpl. destruct (n / 10 =? 0)%N; [discriminate|].
  apply dec_digits_nonempty. discriminate.
Qed.

Lemma int_str_nonempty n : int_str n <> "".
Proof.
  unfold int_str. destruct (n <? 0); [discriminate | apply N_str_nonempty].
Qed.

(** [str(x)] is empty for the empty string only. *)
Lemma py_str_empty repr_str x : py_str repr_str x = "" -> x = JStr "".
Proof.
  destruct x as [| [|] | n | s | l | d]; simpl; try discriminate.
  - intros H. now apply int_str_nonempty in H.
  - now intros ->.
Qed.

(** ** Identifiers *)

Lemma length_string_of_chars l : String.length (string_of_chars l) = length l.
Proof. induction l; simpl; auto. Qed.

Lemma length_hex32 i : length (hex32 i) = 32%nat.
Proof. unfold hex32. now rewrite length_map, length_seq. Qed.

(** A generated identifier has 36 characters. *)
Lemma length_uuid_str i : String.length (uuid_str i) = 36%nat.
Proof.
  unfold uuid_str. rewrite length_string_of_chars.
  repeat rewrite ?length_app, ?length_take, ?length_drop, ?length_hex32.
  reflexivity.
Qed.

Lemma uuid_str_nonempty i : uuid_str i <> "".
Proof.
  intros H. pose proof (length_uuid_str i) as L. rewrite H in L. discriminate.
Qed.

End PyFacts.

(* ===================================================================== *)
(** * Facts about the effects *)
(* ===================================================================== *)

Module EffectFacts.
Import PyValue Effects RunCommand Properties PyFacts.

(** What a sequence of two statements does in a world. *)
Lemma bind_run {A B : Type} (m : M A) (f : A -> M B) (w : World) :
  (m ≫= f) w = match m w with
                | (Ok a, w') => f a w'
                | (Raise e, w') => (Raise e, w')
                end.
Proof. reflexivity. Qed.

(** Unfolding of the monad for goals that run a statement. *)
Ltac mrun :=
  cbv [mbind M_bind mret M_ret raise py_in subscript setitem find_method
       try_except try_except_all try_finally exit] in *.

(** ** [gen_id] *)

Section GenId.
Variable env : Env.

Lemma gen_id_present d k v w :
  dict_get k d = Some v ->
  gen_id env (JObj d) k w
  = (Ok (JObj (dict_set k (JStr (py_str (repr_str env) v)) d)), w).
Proof.
  intros H. unfold gen_id. mrun. unfold dict_has. now rewrite H.
Qed.

Lemma gen_id_absent d k w :
  dict_get k d = None ->
  gen_id env (JObj d) k w
  = (Ok (JObj (dict_set k (JStr (next_uuid env w)) d)), drawn w).
Proof.
  intros H. unfold gen_id. mrun. unfold dict_has. now rewrite H.
Qed.

Lemma gen_id_not_object x k w :
  (forall d, x <> JObj d) -> (gen_id env x k w).1 = Raise TypeError.
Proof.
  intros H. unfold gen_id.
  destruct x as [| b | n | s | l | d]; try reflexivity; mrun.
  - destruct (str_contains k s); reflexivity.
  - destruct (existsb _ l); reflexivity.
  - now destruct (H d).
Qed.

(** ** [_make_json_rpc] *)

(** The normalization of an object, statement by statement. *)
Lemma make_json_rpc_object d w :
  _make_json_rpc env (JObj d) w =
  let d1 := if dict_has "jsonrpc" d then d
            else dict_set "jsonrpc" (JStr "2.0") d in
  let '(ident, w1) :=
    match dict_get "id" d1 with
    | Some v => (py_str (repr_str env) v, w)
    | None => (next_uuid env w, drawn w)
    end in
  let d2 := dict_set "id" (JStr ident) d1 in
  match dict_get "method" d2 with
  | None => (Raise (KeyError "method"), w1)
  | Some (JStr m) =>
      if str_find "." m <? 0
      then (Ok (JObj (dict_set "method" (JStr ("Default." +:+ m)) d2)), w1)
      else (Ok (JObj d2), w1)
  | Some _ => (Raise (AttributeError "find"), w1)
  end.
Proof.
  unfold _make_json_rpc.
  set (d1 := if dict_has "jsonrpc" d then d else dict_set "jsonrpc" (JStr "2.0") d).
  rewrite (bind_run (py_in "jsonrpc" (JObj d))).
  change (py_in "jsonrpc" (JObj d) w) with (Ok (dict_has "jsonrpc" d), w).
  cbv beta iota. rewrite bind_run.
  replace ((if negb (dict_has "jsonrpc" d)
            then setitem (JObj d) "jsonrpc" (JStr "2.0")
            else mret (JObj d)) w) with (Ok (JObj d1), w)
    by (subst d1; now destruct (dict_has "jsonrpc" d)).
  cbv beta iota. rewrite bind_run.
  destruct (dict_get "id" d1) as [v|] eqn:Eid.
  - rewrite (gen_id_present _ _ _ _ Eid). cbv zeta beta iota.
    set (d2 := dict_set "id" _ d1). mrun.
    destruct (dict_get "method" d2) as [[| b | n | m | l | o]|]; try reflexivity.
    unfold default_service. simpl py_str.
    destruct (str_find "." m <? 0); [|reflexivity].
    reflexivity.
  - rewrite (gen_id_absent _ _ _ Eid). cbv zeta beta iota.
    set (d2 := dict_set "id" _ d1). mrun.
    destruct (dict_get "method" d2) as [[| b | n | m | l | o]|]; try reflexivity.
    unfold default_service. simpl py_str.
    destruct (str_find "." m <? 0); [|reflexivity].
    reflexivity.
Qed.

(** Anything but an object is refused with a [TypeError]: by [in], by
    the subscription or by the item assignment. *)
Lemma make_json_rpc_not_object x w :
  (forall d, x <> JObj d) -> (_make_json_rpc env x w).1 = Raise TypeError.
Proof.
  intros H. unfold _make_json_rpc, gen_id.
  destruct x as [| b | n | s | l | d]; try reflexivity; mrun.
  - destruct (str_contains "jsonrpc" s); simpl; [|reflexivity].
    destruct (str_contains "id" s); reflexivity.
  - destruct (existsb _ l); simpl; [|reflexivity].
    destruct (existsb _ l); reflexivity.
  - now destruct (H d).
Qed.

(** What a normalized request is made of. *)
Lemma make_json_rpc_ok_inv req w out w' :
  _make_json_rpc env req w = (Ok out, w') ->
  exists d m dout,
    req = JObj d /\ out = JObj dout /\
    dict_get "method" d = Some (JStr m) /\
    dict_get "method" dout = Some (JStr (qualified m)) /\
    dict_get "id" dout = Some (JStr (ident_for env d w)) /\
    (forall k, ~ In k ["jsonrpc"; "id"; "method"] ->
               dict_get k dout = dict_get k d).
Proof.
  intros H.
  destruct req as [| b | n | s | l | d];
    try (match type of H with
         | _make_json_rpc _ ?x _ = _ =>
             assert (E : (_make_json_rpc env x w).1 = Raise TypeError)
               by (apply make_json_rpc_not_object; discriminate);
             rewrite H in E; discriminate
         end).
  rewrite make_json_rpc_object in H. cbv zeta in H.
  set (d1 := if dict_has "jsonrpc" d then d
             else dict_set "jsonrpc" (JStr "2.0") d) in H.
  assert (G1 : forall k, k <> "jsonrpc" -> dict_get k d1 = dict_get k d).
  { intros k Hk. subst d1. destruct (dict_has "jsonrpc" d); [reflexivity|].
    apply dict_get_set_ne. congruence. }
  assert (Ei : fst (match dict_get "id" d1 with
                    | Some v => (py_str (repr_str env) v, w)
                    | None => (next_uuid env w, drawn w)
                    end) = ident_for env d w).
  { unfold ident_for. rewrite <- (G1 "id") by discriminate.
    now destruct (dict_get "id" d1). }
  destruct (match dict_get "id" d1 with
            | Some v => (py_str (repr_str env) v, w)
            | None => (next_uuid env w, drawn w)
            end) as [ident w1]. simpl in Ei. subst ident.
  set (d2 := dict_set "id" (JStr (ident_for env d w)) d1) in H.
  assert (G2 : forall k, k <> "id" -> dict_get k d2 = dict_get k d1).
  { intros k Hk. subst d2. apply dict_get_set_ne. congruence. }
  assert (Em : dict_get "method" d2 = dict_get "method" d).
  { rewrite G2, G1; [reflexivity | discriminate | discriminate]. }
  rewrite Em in H.
  destruct (dict_get "method" d) as [[| b | n | m | l | o]|] eqn:Hm;
    try discriminate.
  exists d, m. unfold qualified.
  destruct (str_find "." m <? 0); injection H as <- <-; eexists;
    (split; [reflexivity|]); (split; [reflexivity|]); (split; [assumption|]).
  - split; [apply dict_get_set_eq|]. split.
    + rewrite dict_get_set_ne by discriminate. apply dict_get_set_eq.
    + intros k Hk. simpl in Hk.
      rewrite dict_get_set_ne, G2, G1; [reflexivity | | |];
        intros E; apply Hk; subst; auto 6.
  - split; [now rewrite Em|]. split.
    + apply dict_get_set_eq.
    + intros k Hk. simpl in Hk.
      rewrite G2, G1; [reflexivity | |]; intros E; apply Hk; subst; auto 6.
Qed.

(** An object whose method is a string is normalized. *)
Lemma make_json_rpc_total d m w :
  dict_get "method" d = Some (JStr m) ->
  exists out w', _make_json_rpc env (JObj d) w = (Ok out, w').
Proof.
  intros Hm. rewrite make_json_rpc_object. cbv zeta.
  set (d1 := if dict_has "jsonrpc" d then d
             else dict_set "jsonrpc" (JStr "2.0") d).
  assert (G1 : dict_get "method" d1 = Some (JStr m)).
  { subst d1. destruct (dict_has "jsonrpc" d); [assumption|].
    now rewrite dict_get_set_ne by discriminate. }
  destruct (match dict_get "id" d1 with
            | Some v => (py_str (repr_str env) v, w)
            | None => (next_uuid env w, drawn w)
            end) as [ident w1].
  rewrite dict_get_set_ne by discriminate. rewrite G1.
  destruct (str_find "." m <? 0); eauto.
Qed.

End GenId.
End EffectFacts.

(* ===================================================================== *)
(** * The Correlation Assigner and the Envelope Normalizer *)
(* ===================================================================== *)

Module Normalizer.
Import PyValue Effects RunCommand Properties PyFacts EffectFacts.

(** ** The Correlation Assigner *)

(** C4, as the specification has it, fails: an identifier that is not a
    string is replaced by its string form, so the value under the key does
    change.  Here the number 5 becomes the string "5". *)
Lemma gen_id_rewrites_number :
  gen_id Scenario.env (JObj [("id", JInt 5)]) "id" Scenario.ready_world
  = (Ok (JObj [("id", JStr "5")]), Scenario.ready_world)
  /\ dict_get "id" [("id", JStr "5")] <> dict_get "id" [("id", JInt 5)].
Proof. split; [reflexivity | discriminate]. Qed.

(** C4, amended: on a container that has a value under the key, [gen_id]
    stores the string form of that value, draws nothing and leaves the
    rest of the world alone; a second application finds a string and
    stores the same identifier again; a value that is a string already is
    left as it is, and so is every other key. *)
Theorem gen_id_idempotent_on_present env d k v w :
  dict_get k d = Some v ->
  let d' := dict_set k (JStr (py_str (repr_str env) v)) d in
  gen_id env (JObj d) k w = (Ok (JObj d'), w) /\
  gen_id env (JObj d') k w = (Ok (JObj d'), w) /\
  dict_get k d' = Some (JStr (py_str (repr_str env) v)) /\
  (forall s, v = JStr s -> d' = d) /\
  (forall k', k' <> k -> dict_get k' d' = dict_get k' d).
Proof.
  intros H d'. split; [now apply gen_id_present|]. split.
  - rewrite (gen_id_present env d' k (JStr (py_str (repr_str env) v)) w).
    + simpl. subst d'. now rewrite dict_set_set.
    + apply dict_get_set_eq.
  - split; [apply dict_get_set_eq|]. split.
    + intros s ->. simpl in d'. now apply dict_set_same.
    + intros k' Hk. apply dict_get_set_ne. congruence.
Qed.

Lemma gen_id_idempotent_on_present_witness :
  dict_get "id" [("id", JInt 5); ("method", JStr "echo")] = Some (JInt 5) /\
  let d' := [("id", JStr "5"); ("method", JStr "echo")] in
  gen_id Scenario.env (JObj [("id", JInt 5); ("method", JStr "echo")]) "id"
    Scenario.ready_world = (Ok (JObj d'), Scenario.ready_world) /\
  gen_id Scenario.env (JObj d') "id" Scenario.ready_world
  = (Ok (JObj d'), Scenario.ready_world).
Proof.
  split; [reflexivity|].
  pose proof (gen_id_idempotent_on_present Scenario.env
                [("id", JInt 5); ("method", JStr "echo")] "id" (JInt 5)
                Scenario.ready_world eq_refl) as (H1 & H2 & _).
  split; [exact H1 | exact H2].
Defined.

(** ** The Envelope Normalizer: method and id *)

Lemma separators_qualified m :
  (1 <= separators (qualified m))%nat /\
  ((separators m <= 1)%nat -> separators (qualified m) = 1%nat).
Proof.
  unfold separators, qualified.
  destruct (str_find "." m <? 0) eqn:E.
  - apply str_find_absent in E. rewrite str_count_app, E. simpl. lia.
  - assert (str_count "." m <> O).
    { intros H. apply str_find_absent in H. congruence. }
    lia.
Qed.

(** C3, as the specification has it, fails twice on one request: a method
    with two separators is kept, and an empty id is kept. *)
Lemma make_json_rpc_two_separators_empty_id :
  exists out w',
    _make_json_rpc Scenario.env
      (JObj [("id", JStr ""); ("method", JStr "a.b.c")]) Scenario.ready_world
    = (Ok out, w') /\
    method_of out = Some "a.b.c" /\ separators "a.b.c" = 2%nat /\
    id_of out = Some "".
Proof. do 2 eexists. repeat split; reflexivity. Qed.

(** C3, amended: a normalized request has a method string with at least
    one separator, exactly one if the raw method had at most one: a raw
    method without a separator comes back with the prefix ["Default."],
    and a raw method with one separator or more comes back as it is.  Its
    id is a string that is empty only if the raw id was the empty
    string. *)
Theorem make_json_rpc_method_and_id env req w out w' :
  _make_json_rpc env req w = (Ok out, w') ->
  exists m0 m id,
    method_of req = Some m0 /\ method_of out = Some m /\
    id_of out = Some id /\
    (1 <= separators m)%nat /\
    ((separators m0 <= 1)%nat -> separators m = 1%nat) /\
    (separators m0 = O -> m = "Default." +:+ m0) /\
    (separators m0 <> O -> m = m0) /\
    (id = "" -> field "id" req = Some (JStr "")).
Proof.
  intros H. apply make_json_rpc_ok_inv in H.
  destruct H as (d & m0 & dout & -> & -> & Hm0 & Hm & Hid & _).
  exists m0, (qualified m0), (ident_for env d w).
  cbn [method_of id_of field]. rewrite Hm0, Hm, Hid.
  split; [reflexivity|]. split; [reflexivity|]. split; [reflexivity|].
  split; [apply separators_qualified|].
  split; [apply separators_qualified|].
  split; [|split].
  - unfold qualified, separators. intros Hs.
    apply str_find_absent in Hs. now rewrite Hs.
  - unfold qualified, separators. intros Hs.
    destruct (str_find "." m0 <? 0) eqn:E; [|reflexivity].
    apply str_find_absent in E. contradiction.
  - unfold ident_for. destruct (dict_get "id" d) as [v|].
    + intros E. apply py_str_empty in E. subst v. reflexivity.
    + unfold next_uuid. intros E. exfalso. exact (uuid_str_nonempty _ E).
Qed.

Lemma make_json_rpc_method_and_id_witness :
  exists out w',
    _make_json_rpc Scenario.env
      (JObj [("method", JStr "echo"); ("params", JArr [JStr "hi"])])
      Scenario.ready_world = (Ok out, w') /\
    exists m id, method_of out = Some m /\ id_of out = Some id /\
                 separators m = 1%nat /\ m = "Default.echo" /\ id <> "".
Proof.
  eexists _, _. split; [reflexivity|].
  destruct (make_json_rpc_method_and_id Scenario.env
              (JObj [("method", JStr "echo"); ("params", JArr [JStr "hi"])])
              Scenario.ready_world _ _ eq_refl)
    as (m0 & m & id & Hm0 & Hm & Hid & _ & H1 & Hpre & _ & Hne).
  injection Hm0 as <-.
  exists m, id. split; [exact Hm|]. split; [exact Hid|]. split; [|split].
  - apply H1. vm_compute. lia.
  - apply Hpre. reflexivity.
  - intros E. specialize (Hne E). discriminate.
Defined.

End Normalizer.

(* ===================================================================== *)
(** * The shape of the normalized [req] *)
(* ===================================================================== *)

Module Shape.
Import PyValue Effects RunCommand Properties PyFacts EffectFacts.

Section MapM.
Context {A B : Type} (f : A -> M B).

(** A comprehension that returns ran [f] on every element, in order. *)
Lemma mapM_ok_inv (R : A -> B -> Prop) :
  (forall a w b w', f a w = (Ok b, w') -> R a b) ->
  forall l w l' w', mapM f l w = (Ok l', w') -> Forall2 R l l'.
Proof.
  intros HR. induction l as [|a l IH]; intros w l' w' H.
  - injection H as <- <-. constructor.
  - simpl in H. rewrite bind_run in H.
    destruct (f a w) as [[b|e] w1] eqn:Ea; [|discriminate].
    rewrite bind_run in H.
    destruct (mapM f l w1) as [[bs|e] w2] eqn:El; [|discriminate].
    injection H as <- <-. constructor; eauto.
Qed.

(** It returns when [f] returns on every element. *)
Lemma mapM_total (P : A -> Prop) :
  (forall a w, P a -> exists b w', f a w = (Ok b, w')) ->
  forall l w, Forall P l -> exists l' w', mapM f l w = (Ok l', w').
Proof.
  intros HP. induction l as [|a l IH]; intros w Hl.
  - exists [], w. reflexivity.
  - inversion Hl as [|? ? Ha Hl']; subst.
    destruct (HP a w Ha) as (b & w1 & Eb).
    destruct (IH w1 Hl') as (bs & w2 & Ebs).
    exists (b :: bs), w2. simpl. rewrite bind_run, Eb, bind_run, Ebs.
    reflexivity.
Qed.
End MapM.

Section Frame.
Variable env : Env.

Lemma make_json_rpc_same_payload req w out w' :
  _make_json_rpc env req w = (Ok out, w') -> same_payload req out.
Proof.
  intros H. apply make_json_rpc_ok_inv in H.
  destruct H as (d & m & dout & -> & -> & _ & _ & _ & Hk).
  exists d, dout. auto.
Qed.

Lemma make_json_rpc_accepts x w :
  is_request x -> exists out w', _make_json_rpc env x w = (Ok out, w').
Proof.
  intros (d & m & -> & Hm). now apply (make_json_rpc_total env d m).
Qed.

(** C9: normalization keeps the shape of the [req] value.  One request
    comes back as one object, a sequence as a sequence of the same length
    whose elements stand where their raw forms stood, and an element
    differs from its raw form in the protocol version, the id and the
    method at most.  A [req] value made of objects with a method string is
    always normalized. *)
Theorem normalize_reqs_same_shape reqs w :
  (is_req_value reqs ->
   exists out w', normalize_reqs env reqs w = (Ok out, w')) /\
  (forall out w',
     normalize_reqs env reqs w = (Ok out, w') -> same_shape reqs out).
Proof.
  split.
  - intros Hwf. destruct reqs as [| b | n | s | l | d];
      try (now apply make_json_rpc_accepts).
    simpl in Hwf. unfold normalize_reqs.
    destruct (mapM_total (_make_json_rpc env) is_request
                (fun a w0 Ha => make_json_rpc_accepts a w0 Ha) l w Hwf)
      as (l' & w' & E).
    exists (JArr l'), w'. now rewrite bind_run, E.
  - intros out w' H. destruct reqs as [| b | n | s | l | d];
      try (now apply (make_json_rpc_same_payload _ w _ w')).
    unfold normalize_reqs in H. rewrite bind_run in H.
    destruct (mapM (_make_json_rpc env) l w) as [[l'|e] w1] eqn:E;
      [|discriminate].
    injection H as <- <-. exists l'. split; [reflexivity|].
    eapply mapM_ok_inv; [|exact E].
    intros a w0 b0 w0'. apply make_json_rpc_same_payload.
Qed.

End Frame.

Lemma normalize_reqs_same_shape_witness :
  let batch := JArr [JObj [("method", JStr "echo"); ("params", JArr [JInt 1])];
                     JObj [("method", JStr "Math.add"); ("id", JInt 7);
                           ("params", JArr [JInt 1; JInt 2])]] in
  is_req_value batch /\
  exists out w',
    normalize_reqs Scenario.env batch Scenario.ready_world = (Ok out, w') /\
    same_shape batch out.
Proof.
  intros batch.
  assert (Hwf : is_req_value batch).
  { repeat constructor; eexists _, _; split; reflexivity. }
  split; [exact Hwf|].
  destruct (normalize_reqs_same_shape Scenario.env batch Scenario.ready_world)
    as [Htotal Hshape].
  destruct (Htotal Hwf) as (out & w' & E).
  exists out, w'. split; [exact E | exact (Hshape out w' E)].
Defined.

End Shape.

(* ===================================================================== *)
(** * Startup *)
(* ===================================================================== *)

Module Startup.
Import PyValue Effects RunCommand Properties PyFacts EffectFacts.

(** ** Which statements can end in a given exception *)

Section NeverRaises.
Variable e : exn.

Lemma never_raises_bind {A B : Type} (m : M A) (f : A -> M B) :
  never_raises e m -> (forall a, never_raises e (f a)) ->
  never_raises e (m ≫= f).
Proof.
  intros Hm Hf w w' H. rewrite bind_run in H.
  destruct (m w) as [[a|e0] w1] eqn:E.
  - exact (Hf a w1 w' H).
  - injection H as -> ->. exact (Hm w w' E).
Qed.

Lemma never_raises_ret {A : Type} (a : A) : never_raises e (mret a : M A).
Proof. intros w w' H. discriminate. Qed.

Lemma never_raises_raise {A : Type} (e' : exn) :
  e' <> e -> never_raises e (raise e' : M A).
Proof. intros Hne w w' H. injection H as -> _. congruence. Qed.

Lemma never_raises_if {A : Type} (b : bool) (m1 m2 : M A) :
  never_raises e m1 -> never_raises e m2 ->
  never_raises e (if b then m1 else m2).
Proof. now destruct b. Qed.

Lemma never_raises_mapM {A B : Type} (f : A -> M B) (l : list A) :
  (forall a, never_raises e (f a)) -> never_raises e (mapM f l).
Proof.
  intros Hf. induction l as [|a l IH]; simpl.
  - apply never_raises_ret.
  - apply never_raises_bind; [apply Hf|]. intros b.
    apply never_raises_bind; [apply IH|]. intros bs. apply never_raises_ret.
Qed.
End NeverRaises.

(** ** [ParseError] comes from [_startup] alone *)

Ltac never_step :=
  first [ apply never_raises_ret
        | apply never_raises_raise; discriminate
        | apply never_raises_bind; [|intros ?]
        | apply never_raises_if ].

Lemma py_in_no_parse_error k x : never_raises ParseError (py_in k x).
Proof. destruct x; unfold py_in; never_step. Qed.

Lemma subscript_no_parse_error x k : never_raises ParseError (subscript x k).
Proof.
  destruct x; unfold subscript; try never_step.
  destruct (dict_get k fields); never_step.
Qed.

Lemma setitem_no_parse_error x k v : never_raises ParseError (setitem x k v).
Proof. destruct x; unfold setitem; never_step. Qed.

Lemma find_method_no_parse_error x c : never_raises ParseError (find_method x c).
Proof. destruct x; unfold find_method; never_step. Qed.

Lemma fresh_uuid_no_parse_error env : never_raises ParseError (fresh_uuid env).
Proof. intros w w' H. discriminate. Qed.

Lemma os_path_exists_no_parse_error p : never_raises ParseError (os_path_exists p).
Proof. intros w w' H. discriminate. Qed.

Lemma os_remove_no_parse_error p : never_raises ParseError (os_remove p).
Proof.
  intros w w' H. unfold os_remove in H.
  destruct (fs w !! p) as [[]|]; discriminate.
Qed.

Lemma os_mkfifo_no_parse_error p : never_raises ParseError (os_mkfifo p).
Proof.
  intros w w' H. unfold os_mkfifo, parent_error in H.
  destruct (fs w !! p); [discriminate|].
  destruct (has_parent (fs w) p); [discriminate|].
  destruct (fs w !! parent_dir p); discriminate.
Qed.

Create HintDb never.

#[local] Hint Resolve py_in_no_parse_error subscript_no_parse_error
  setitem_no_parse_error find_method_no_parse_error
  fresh_uuid_no_parse_error os_path_exists_no_parse_error
  os_remove_no_parse_error os_mkfifo_no_parse_error : never.

Ltac never := repeat first [ solve [auto with never] | never_step ].

Section NoParseError.
Variable env : Env.

Lemma gen_id_no_parse_error d v : never_raises ParseError (gen_id env d v).
Proof. unfold gen_id. never. Qed.

Lemma make_json_rpc_no_parse_error req :
  never_raises ParseError (_make_json_rpc env req).
Proof.
  unfold _make_json_rpc. pose proof gen_id_no_parse_error. never.
Qed.

Lemma normalize_reqs_no_parse_error reqs :
  never_raises ParseError (normalize_reqs env reqs).
Proof.
  pose proof make_json_rpc_no_parse_error as H.
  destruct reqs; unfold normalize_reqs; auto.
  apply never_raises_bind; [now apply never_raises_mapM|].
  intros l. apply never_raises_ret.
Qed.

Lemma remove_if_exists_no_parse_error p :
  never_raises ParseError (remove_if_exists p).
Proof. unfold remove_if_exists. never. Qed.

End NoParseError.

(** ** The outcomes of [_startup] *)

Section StartupCases.
Variable env : Env.
Variable self : RunCmd.

(** Lines 55-59: the request is fetched and parsed. *)
Lemma startup_load w :
  try_except_all
    (in_str ← store_get_request;
     match json_loads in_str with
     | Some j => mret j
     | None => raise ValueError
     end)
    (raise ParseError) w
  = match request (store w) with
    | Some doc => match json_loads doc with
                  | Some j => (Ok j, w)
                  | None => (Raise ParseError, w)
                  end
    | None => (Raise ParseError, w)
    end.
Proof.
  unfold try_except_all, store_get_request. rewrite bind_run.
  destruct (request (store w)) as [doc|]; [|reflexivity].
  destruct (json_loads doc); reflexivity.
Qed.

(** A payload that is not valid JSON. *)
Lemma startup_garbled w doc :
  request (store w) = Some doc -> json_loads doc = None ->
  _startup env self w = (Raise ParseError, w).
Proof.
  intros Hr Hl. unfold _startup. rewrite bind_run, startup_load, Hr, Hl.
  reflexivity.
Qed.

(** A payload that is valid JSON but not an object. *)
Lemma startup_not_object w doc j :
  request (store w) = Some doc -> json_loads doc = Some j ->
  (forall d, j <> JObj d) ->
  (_startup env self w).1 = Raise TypeError.
Proof.
  intros Hr Hl Hj. unfold _startup. rewrite bind_run, startup_load, Hr, Hl.
  rewrite bind_run.
  pose proof (gen_id_not_object env j "id" w Hj) as E.
  destruct (gen_id env j "id" w) as [[a|e] w1]; simpl in E; [discriminate|].
  now injection E as ->.
Qed.

(** The world after [set_task_id]. *)
Lemma startup_no_req w doc d :
  request (store w) = Some doc -> json_loads doc = Some (JObj d) ->
  dict_has "req" d = false ->
  exists w',
    _startup env self w = (Raise ParseError, w') /\
    task_id (store w') = Some (JStr (ident_for env d w)) /\
    fs w' = fs w /\ syslog w' = syslog w.
Proof.
  intros Hr Hl Hreq. unfold _startup. rewrite bind_run, startup_load, Hr, Hl.
  rewrite bind_run. unfold ident_for.
  destruct (dict_get "id" d) as [v|] eqn:Eid.
  - rewrite (gen_id_present env d "id" v w Eid).
    rewrite bind_run. cbn [subscript]. rewrite dict_get_set_eq.
    change ((mret (JStr (py_str (repr_str env) v)) : M json) w)
      with (Ok (JStr (py_str (repr_str env) v)), w).
    cbv beta iota. rewrite bind_run. cbn [store_set_task_id].
    rewrite bind_run. cbn [py_in].
    assert (E : dict_has "req"
                  (dict_set "id" (JStr (py_str (repr_str env) v)) d) = false).
    { apply dict_has_false. rewrite dict_get_set_ne by discriminate.
      now apply dict_has_false. }
    rewrite E. eexists. split; [reflexivity|]. repeat split.
  - rewrite (gen_id_absent env d "id" w Eid).
    rewrite bind_run. cbn [subscript]. rewrite dict_get_set_eq.
    change ((mret (JStr (next_uuid env w)) : M json) (drawn w))
      with (Ok (JStr (next_uuid env w)), drawn w).
    cbv beta iota. rewrite bind_run. cbn [store_set_task_id].
    rewrite bind_run. cbn [py_in].
    assert (E : dict_has "req" (dict_set "id" (JStr (next_uuid env w)) d) = false).
    { apply dict_has_false. rewrite dict_get_set_ne by discriminate.
      now apply dict_has_false. }
    rewrite E. eexists. split; [reflexivity|]. repeat split.
Qed.

Lemma never_raises_fst {A : Type} (e : exn) (m : M A) w :
  never_raises e m -> (m w).1 <> Raise e.
Proof.
  intros H E. destruct (m w) as [r w'] eqn:Em. simpl in E. subst r.
  exact (H w w' Em).
Qed.

(** An object with a [req] field: whatever happens next, it is not a
    [ParseError]. *)
Lemma startup_with_req w doc d :
  never_raises ParseError (copy_shim (stack self)) ->
  request (store w) = Some doc -> json_loads doc = Some (JObj d) ->
  dict_has "req" d = true ->
  (_startup env self w).1 <> Raise ParseError.
Proof.
  intros Hshim Hr Hl Hreq. unfold _startup.
  rewrite bind_run, startup_load, Hr, Hl. rewrite bind_run.
  assert (Hgen : exists s w1,
             gen_id env (JObj d) "id" w = (Ok (JObj (dict_set "id" (JStr s) d)), w1)).
  { destruct (dict_get "id" d) as [v|] eqn:Eid.
    - eexists _, _. exact (gen_id_present env d "id" v w Eid).
    - eexists _, _. exact (gen_id_absent env d "id" w Eid). }
  destruct Hgen as (s & w1 & ->).
  rewrite bind_run. cbn [subscript]. rewrite dict_get_set_eq.
  change ((mret (JStr s) : M json) w1) with (Ok (JStr s), w1).
  cbv beta iota. rewrite bind_run. cbn [store_set_task_id].
  rewrite bind_run. cbn [py_in].
  assert (E : dict_has "req" (dict_set "id" (JStr s) d) = true).
  { apply dict_has_get. apply dict_has_get in Hreq as [v Hv]. exists v.
    now rewrite dict_get_set_ne by discriminate. }
  rewrite E.
  change ((mret true : M bool) (with_store w1 _)) with (Ok true, with_store w1
    {| request := request (store w1); task_id := Some (JStr s);
       response := response (store w1); files := files (store w1) |}).
  cbv beta iota.
  apply never_raises_fst.
  pose proof (normalize_reqs_no_parse_error env).
  pose proof remove_if_exists_no_parse_error.
  never. apply (subscript_no_parse_error (JObj _) "req").
Qed.

End StartupCases.

End Startup.

Module StartupOutcomes.
Import PyValue Effects RunCommand Properties PyFacts EffectFacts Startup.

Lemma open_w_no_parse_error p : never_raises ParseError (open_w p).
Proof.
  intros w w' H. unfold open_w, parent_error in H.
  destruct (fs w !! p) as [[]|]; try discriminate.
  destruct (has_parent (fs w) p); [discriminate|].
  destruct (fs w !! parent_dir p); discriminate.
Qed.

(** ** Malformed requests *)

(** C8, as the specification has it, fails: the payload [[]] is valid JSON
    and has no [req] field, and startup ends in a [TypeError], raised by
    [gen_id] before the [req] field is looked for. *)
Lemma startup_array_payload_type_error :
  let w := Scenario.clean_world (Document (JArr [])) in
  request (store w) = Some (Document (JArr [])) /\
  json_loads (Document (JArr [])) = Some (JArr []) /\
  has_field "req" (JArr []) = false /\
  (_startup Scenario.env Scenario.self w).1 = Raise TypeError /\
  (_startup Scenario.env Scenario.self w).1 <> Raise ParseError.
Proof. repeat split. discriminate. Qed.

(** C8, amended: with a request delivered by the store, startup ends in
    [ParseError] exactly when the payload is not valid JSON or is a JSON
    object without a [req] field; a payload that is valid JSON but not an
    object ends in a [TypeError]; and a payload with a [req] field never
    ends in [ParseError].  The stack's [copy_shim] is taken not to raise
    [ParseError] itself. *)
Theorem startup_parse_error_cases env self w doc :
  never_raises ParseError (copy_shim (stack self)) ->
  request (store w) = Some doc ->
  ((_startup env self w).1 = Raise ParseError <->
   json_loads doc = None \/
   exists d, json_loads doc = Some (JObj d) /\ dict_has "req" d = false) /\
  (forall j, json_loads doc = Some j -> (forall d, j <> JObj d) ->
             (_startup env self w).1 = Raise TypeError) /\
  (forall j, json_loads doc = Some j -> has_field "req" j = true ->
             (_startup env self w).1 <> Raise ParseError).
Proof.
  intros Hshim Hr.
  assert (Hobj : forall j, json_loads doc = Some j -> (forall d, j <> JObj d) ->
                           (_startup env self w).1 = Raise TypeError).
  { intros j Hl Hj. exact (startup_not_object env self w doc j Hr Hl Hj). }
  split; [|split; [exact Hobj|]].
  - split.
    + intros E. destruct (json_loads doc) as [j|] eqn:Hl; [right|now left].
      destruct j as [| b | n | s | l | d];
        try (rewrite (Hobj _ eq_refl) in E; [discriminate | discriminate]).
      exists d. split; [reflexivity|].
      destruct (dict_has "req" d) eqn:Hreq; [|reflexivity].
      now destruct (startup_with_req env self w doc d Hshim Hr Hl Hreq).
    + intros [Hl | (d & Hl & Hreq)].
      * now rewrite (startup_garbled env self w doc Hr Hl).
      * destruct (startup_no_req env self w doc d Hr Hl Hreq) as (w' & E & _).
        now rewrite E.
  - intros j Hl Hreq. destruct j as [| b | n | s | l | d]; try discriminate.
    exact (startup_with_req env self w doc d Hshim Hr Hl Hreq).
Qed.

Lemma startup_parse_error_cases_witness :
  let w := Scenario.clean_world (Document Scenario.no_req_request) in
  never_raises ParseError (copy_shim (stack Scenario.self)) /\
  request (store w) = Some (Document Scenario.no_req_request) /\
  (_startup Scenario.env Scenario.self w).1 = Raise ParseError.
Proof.
  intros w.
  assert (Hshim : never_raises ParseError (copy_shim (stack Scenario.self)))
    by apply open_w_no_parse_error.
  split; [exact Hshim|]. split; [reflexivity|].
  destruct (startup_parse_error_cases Scenario.env Scenario.self w
              (Document Scenario.no_req_request) Hshim eq_refl) as [[_ H] _].
  apply H. right. exists [("id", JInt 5)]. split; reflexivity.
Defined.

(** C10: a payload that is a JSON object without a [req] field makes
    startup end in [ParseError], and by then the store holds the task id:
    the string form of the payload's id, or a drawn one when the payload
    has none.  A store that held another task id, or none, has changed. *)
Theorem startup_without_req_sets_task_id env self w d :
  request (store w) = Some (Document (JObj d)) ->
  dict_has "req" d = false ->
  exists w',
    _startup env self w = (Raise ParseError, w') /\
    task_id (store w') = Some (JStr (ident_for env d w)) /\
    (task_id (store w) <> Some (JStr (ident_for env d w)) ->
     store w' <> store w).
Proof.
  intros Hr Hreq.
  destruct (startup_no_req env self w _ d Hr eq_refl Hreq) as (w' & E & Ht & _).
  exists w'. split; [exact E|]. split; [exact Ht|].
  intros Hne Heq. apply Hne. now rewrite <- Heq.
Qed.

Lemma startup_without_req_sets_task_id_witness :
  let w := Scenario.clean_world (Document Scenario.no_req_request) in
  request (store w) = Some (Document (JObj [("id", JInt 5)])) /\
  dict_has "req" [("id", JInt 5)] = false /\
  exists w',
    _startup Scenario.env Scenario.self w = (Raise ParseError, w') /\
    task_id (store w') = Some (JStr "5") /\ store w' <> store w.
Proof.
  intros w. split; [reflexivity|]. split; [reflexivity|].
  destruct (startup_without_req_sets_task_id Scenario.env Scenario.self w
              [("id", JInt 5)] eq_refl eq_refl) as (w' & E & Ht & Hs).
  exists w'. split; [exact E|]. split; [exact Ht|].
  apply Hs. discriminate.
Defined.

End StartupOutcomes.

(* ===================================================================== *)
(** * The External Call Forwarder *)
(* ===================================================================== *)

Module Forwarder.
Import PyValue Effects RunCommand Properties PyFacts EffectFacts.

Section RunExt.
Variable env : Env.
Variable self : RunCmd.
Variables (method : string) (params : json) (req_id : string).

(** Once the task directory and the channels are in place, the call is
    decided by the response and the exit status. *)
Lemma run_ext_after_handshake w w1 :
  handshake env req_id w = (Ok tt, w1) ->
  _run_ext env self method params req_id w
  = match json_loads (reply (child env self method params req_id)) with
    | Some resp => check_response env method (popen env self method params req_id) resp w1
    | None => (Raise ValueError, w1)
    end.
Proof.
  unfold handshake, _run_ext. rewrite !bind_run.
  destruct (ensure_req_path env req_id w) as [[[]|e] w0]; [|discriminate].
  rewrite !bind_run.
  destruct (open_w REQ_FIFO w0) as [[[]|e] w0']; [|discriminate].
  rewrite !bind_run.
  destruct (open_r RESP_FIFO w0') as [[[]|e] w0'']; [|discriminate].
  intros [= ->]. rewrite bind_run.
  unfold popen, child, shim_request.
  destruct (json_loads _); reflexivity.
Qed.

(** Lines 126-127 come first. *)
Lemma check_response_nonzero p resp w :
  returncode p <> 0 ->
  check_response env method p resp w
  = (Raise (NonZeroExitError (returncode p) (stdout p)), w).
Proof.
  intros H. unfold check_response.
  destruct (returncode p =? 0) eqn:E; [|reflexivity].
  apply Z.eqb_eq in E. contradiction.
Qed.

(** Lines 131-138 on a response object. *)
Lemma check_response_zero p d w :
  returncode p = 0 ->
  check_response env method p (JObj d) w
  = (match dict_get "error" d with
     | Some code =>
         if eq_int code (ERR_METHOD_NOT_FOUND env)
         then Raise (ServerError code
                       (JStr ("Method or service " +:+ method +:+ " not found")))
         else match dict_get "msg" d with
              | Some msg => Raise (ServerError code msg)
              | None => Raise (KeyError "msg")
              end
     | None =>
         match dict_get "result" d with
         | Some r => Ok r
         | None => Raise (KeyError "result")
         end
     end, w).
Proof.
  intros H. unfold check_response. rewrite H. cbn [Z.eqb negb].
  mrun. unfold dict_has.
  destruct (dict_get "error" d) as [code|].
  - destruct (eq_int code (ERR_METHOD_NOT_FOUND env)); [reflexivity|].
    destruct (dict_get "msg" d); reflexivity.
  - destruct (dict_get "result" d); reflexivity.
Qed.

(** C2, amended: once the task directory is there (found or made) and
    both channels have been opened, a call whose child exits with a
    non-zero status ends in one of two ways, and the text of the response
    decides which.  The response is
    parsed on line 121, before [p.wait()] on line 125: if it is not valid
    JSON the call ends in the [ValueError] of [json.loads] and the exit
    status is never looked at; if it parses, to any value at all, the
    call ends in [NonZeroExitError] with that status, and the [error]
    field of the response is never reached. *)
Theorem run_ext_nonzero_exit w w1 :
  handshake env req_id w = (Ok tt, w1) ->
  exit_status (child env self method params req_id) <> 0 ->
  _run_ext env self method params req_id w
  = (match json_loads (reply (child env self method params req_id)) with
     | Some _ =>
         Raise (NonZeroExitError
                  (exit_status (child env self method params req_id))
                  (stdout (popen env self method params req_id)))
     | None => Raise ValueError
     end, w1).
Proof.
  intros Hh Hrc. rewrite (run_ext_after_handshake w w1 Hh).
  destruct (json_loads (reply (child env self method params req_id)))
    as [resp|]; [|reflexivity].
  now apply check_response_nonzero.
Qed.

(** The [stdout] attribute handed to [NonZeroExitError] is [None]: the
    child was started without [stdout=PIPE]. *)
Lemma popen_stdout_none : stdout (popen env self method params req_id) = None.
Proof. reflexivity. Qed.

(** C6, amended: after a zero exit status, a response object is read as
    follows.  With an [error] field equal to the reserved code the call
    ends in a [ServerError] that names the method; with another code it
    ends in a [ServerError] with that code and the [msg] field, or in a
    [KeyError] when there is no [msg] field; without an [error] field the
    [result] field is returned, or the call ends in a [KeyError] when
    there is none. *)
Theorem run_ext_response_cases w w1 d :
  handshake env req_id w = (Ok tt, w1) ->
  json_loads (reply (child env self method params req_id)) = Some (JObj d) ->
  exit_status (child env self method params req_id) = 0 ->
  _run_ext env self method params req_id w
  = (match dict_get "error" d with
     | Some code =>
         if eq_int code (ERR_METHOD_NOT_FOUND env)
         then Raise (ServerError code
                       (JStr ("Method or service " +:+ method +:+ " not found")))
         else match dict_get "msg" d with
              | Some msg => Raise (ServerError code msg)
              | None => Raise (KeyError "msg")
              end
     | None =>
         match dict_get "result" d with
         | Some r => Ok r
         | None => Raise (KeyError "result")
         end
     end, w1).
Proof.
  intros Hh Hresp Hrc. rewrite (run_ext_after_handshake w w1 Hh), Hresp.
  now apply check_response_zero.
Qed.

End RunExt.

(** C2, as the specification has it, fails: the child exits with status
    3 and leaves a response that is not valid JSON; the channels are in
    place and the task directory is made, and the call ends in the
    [ValueError]
    of [json.loads], not in [NonZeroExitError]. *)
Lemma run_ext_value_error_after_crash :
  let c := child Coverage.faulty_env Scenario.self "Default.garbled"
             (JArr []) "task" in
  let out := _run_ext Coverage.faulty_env Scenario.self "Default.garbled"
               (JArr []) "task" Scenario.ready_world in
  exit_status c = 3 /\
  reply c = Garbled "{'result':" /\
  present Scenario.ready_world REQ_FIFO /\
  present Scenario.ready_world RESP_FIFO /\
  (handshake Coverage.faulty_env "task" Scenario.ready_world).1 = Ok tt /\
  out.1 = Raise ValueError /\
  out.1 <> Raise (NonZeroExitError 3 None).
Proof.
  cbv zeta. split; [reflexivity|]. split; [reflexivity|].
  split; [exists Fifo; vm_compute; reflexivity|].
  split; [exists Fifo; vm_compute; reflexivity|].
  split; [vm_compute; reflexivity|].
  split; [vm_compute; reflexivity|].
  vm_compute. discriminate.
Qed.

Lemma run_ext_nonzero_exit_witness :
  let c := child Scenario.env Scenario.self "Default.crash" (JArr []) "task" in
  handshake Scenario.env "task" Scenario.ready_world
  = (Ok tt, (handshake Scenario.env "task" Scenario.ready_world).2) /\
  exit_status c <> 0 /\
  json_loads (reply c)
  = Some (JObj [("error", JInt 99); ("msg", JStr "boom")]) /\
  (_run_ext Scenario.env Scenario.self "Default.crash" (JArr []) "task"
     Scenario.ready_world).1 = Raise (NonZeroExitError 2 None).
Proof.
  intros c.
  assert (Hh : handshake Scenario.env "task" Scenario.ready_world
               = (Ok tt, (handshake Scenario.env "task" Scenario.ready_world).2))
    by (vm_compute; reflexivity).
  assert (Hrc : exit_status c <> 0) by discriminate.
  split; [exact Hh|]. split; [exact Hrc|]. split; [reflexivity|].
  rewrite (run_ext_nonzero_exit Scenario.env Scenario.self
             "Default.crash" (JArr []) "task" _ _ Hh Hrc).
  reflexivity.
Defined.

(** C5, on a call whose child prints a traceback and exits with status 2:
    the error carries the status, and [None] where the output should be. *)
Theorem run_ext_crash_output_dropped :
  let c := child Scenario.env Scenario.self "Default.crash" (JArr []) "task" in
  exit_status c = 2 /\
  printed c = "Traceback (most recent call last)" /\
  (_run_ext Scenario.env Scenario.self "Default.crash" (JArr []) "task"
     Scenario.ready_world).1 = Raise (NonZeroExitError 2 None).
Proof. repeat split. Qed.

(** C6, as the specification has it, fails: the child exits with status 0
    and answers with an [error] field, 99, and no [msg] field; the call
    ends in a [KeyError], not in a [ServerError]. *)
Lemma run_ext_error_without_msg :
  let c := child Scenario.env Scenario.self "Default.bare" (JArr []) "task" in
  exit_status c = 0 /\
  reply c = Document (JObj [("error", JInt 99)]) /\
  eq_int (JInt 99) (ERR_METHOD_NOT_FOUND Scenario.env) = false /\
  (_run_ext Scenario.env Scenario.self "Default.bare" (JArr []) "task"
     Scenario.ready_world).1 = Raise (KeyError "msg").
Proof. repeat split. Qed.

Lemma run_ext_response_cases_witness :
  let c := child Scenario.env Scenario.self "Default.fail" (JArr []) "task" in
  handshake Scenario.env "task" Scenario.ready_world
  = (Ok tt, (handshake Scenario.env "task" Scenario.ready_world).2) /\
  json_loads (reply c)
  = Some (JObj [("error", JInt 99); ("msg", JStr "boom")]) /\
  exit_status c = 0 /\
  (_run_ext Scenario.env Scenario.self "Default.fail" (JArr []) "task"
     Scenario.ready_world).1 = Raise (ServerError (JInt 99) (JStr "boom")).
Proof.
  intros c.
  assert (Hh : handshake Scenario.env "task" Scenario.ready_world
               = (Ok tt, (handshake Scenario.env "task" Scenario.ready_world).2))
    by (vm_compute; reflexivity).
  split; [exact Hh|]. split; [reflexivity|]. split; [reflexivity|].
  rewrite (run_ext_response_cases Scenario.env Scenario.self
             "Default.fail" (JArr []) "task" _ _ _ Hh eq_refl eq_refl).
  reflexivity.
Defined.

End Forwarder.

(* ===================================================================== *)
(** * The task directory *)
(* ===================================================================== *)

Module Scratch.
Import PyValue Effects RunCommand Properties PyFacts EffectFacts.

Lemma forwards_refl path w : forwards path w w.
Proof.
  exists []. rewrite app_nil_r. unfold no_remove, mkdirs. simpl.
  repeat split; auto; try lia.
Qed.

Lemma mkdirs_app path l1 l2 :
  mkdirs path (l1 ++ l2) = (mkdirs path l1 + mkdirs path l2)%nat.
Proof. unfold mkdirs. apply count_occ_app. Qed.

Lemma forwards_trans path w1 w2 w3 :
  forwards path w1 w2 -> forwards path w2 w3 -> forwards path w1 w3.
Proof.
  intros (n1 & L1 & R1 & M1 & C1 & P1 & Q1) (n2 & L2 & R2 & M2 & C2 & P2 & Q2).
  exists (n1 ++ n2)%list. rewrite L2, L1, <- app_assoc, mkdirs_app.
  split; [reflexivity|]. split; [now apply Forall_app|].
  split; [auto|].
  assert (mkdirs path n1 = 1%nat -> mkdirs path n2 = O) by auto.
  repeat split.
  - lia.
  - intros H1. rewrite (P1 H1), (P2 (M1 _ H1)). reflexivity.
  - intros Hs. destruct (mkdirs path n1) as [|[|k]]; [apply Q2; lia | | lia].
    apply M2, Q1. reflexivity.
Qed.

(** One more entry in the file system, one more line in the log. *)
Lemma forwards_create path w p k c :
  fs w !! p = None -> is_remove c = false ->
  (c = SysMkdir path -> p = path) ->
  forwards path w (with_fs w (<[p := k]> (fs w)) c).
Proof.
  intros Hp Hc Hpath. exists [c]. unfold mkdirs, present. simpl.
  split; [reflexivity|]. split; [now repeat constructor|].
  split.
  { intros q Hq. destruct (decide (p = q)) as [->|Hne].
    - rewrite lookup_insert_eq. eauto.
    - now rewrite lookup_insert_ne. }
  destruct (syscall_eq_dec c (SysMkdir path)) as [E|E].
  - specialize (Hpath E). subst p. repeat split; try lia.
    + intros [x Hx]. congruence.
    + intros _. rewrite lookup_insert_eq. eauto.
  - repeat split; try lia.
Qed.

Section Steps.
Variable env : Env.
Variable self : RunCmd.

(** Lines 108-109 do nothing when the path is there. *)
Lemma ensure_req_path_present req_id w :
  present w (req_path_of env req_id) ->
  ensure_req_path env req_id w = (Ok tt, w).
Proof.
  intros H. unfold ensure_req_path, os_path_exists. rewrite bind_run.
  fold (req_path_of env req_id).
  rewrite bool_decide_eq_true_2 by exact H. reflexivity.
Qed.

(** Running them twice is running them once. *)
Lemma ensure_req_path_twice req_id w :
  (ensure_req_path env req_id;; ensure_req_path env req_id) w
  = ensure_req_path env req_id w.
Proof.
  rewrite bind_run.
  destruct (ensure_req_path env req_id w) as [[[]|e] w1] eqn:E; [|reflexivity].
  apply ensure_req_path_present.
  revert E. unfold ensure_req_path, os_path_exists. rewrite bind_run.
  fold (req_path_of env req_id). set (path := req_path_of env req_id).
  destruct (bool_decide (is_Some (fs w !! path))) eqn:B; simpl.
  - intros [= <-]. now apply bool_decide_eq_true_1 in B.
  - unfold os_mkdir. destruct (fs w !! path); [discriminate|].
    destruct (has_parent (fs w) path); [|discriminate].
    intros [= <-]. unfold present. simpl. rewrite lookup_insert_eq. eauto.
Qed.

Lemma ensure_req_path_forwards req_id w :
  forwards (req_path_of env req_id) w (ensure_req_path env req_id w).2.
Proof.
  unfold ensure_req_path, os_path_exists. rewrite bind_run.
  fold (req_path_of env req_id). set (path := req_path_of env req_id).
  destruct (bool_decide (is_Some (fs w !! path))) eqn:E; simpl.
  - apply forwards_refl.
  - unfold os_mkdir. destruct (fs w !! path) eqn:Hp; [apply forwards_refl|].
    destruct (has_parent (fs w) path); [|apply forwards_refl].
    simpl. apply forwards_create; auto.
Qed.

Lemma open_w_forwards path p w : forwards path w (open_w p w).2.
Proof.
  unfold open_w. destruct (fs w !! p) as [[]|] eqn:Hp; try apply forwards_refl.
  destruct (has_parent (fs w) p); [|apply forwards_refl].
  simpl. apply forwards_create; auto. discriminate.
Qed.

Lemma open_r_world p w : (open_r p w).2 = w.
Proof. unfold open_r. destruct (fs w !! p) as [[]|]; reflexivity. Qed.

Lemma check_response_world method p resp w :
  (check_response env method p resp w).2 = w.
Proof.
  unfold check_response. destruct (negb (returncode p =? 0)); [reflexivity|].
  mrun. destruct resp as [| b | n | s | l | d]; try reflexivity.
  - destruct (str_contains "error" s); reflexivity.
  - destruct (existsb _ l); reflexivity.
  - destruct (dict_has "error" d).
    + destruct (dict_get "error" d) as [code|]; [|reflexivity].
      destruct (eq_int code (ERR_METHOD_NOT_FOUND env)); [reflexivity|].
      destruct (dict_get "msg" d); reflexivity.
    + destruct (dict_get "result" d); reflexivity.
Qed.

(** A nested call removes nothing and creates the task directory at most
    once, when it is not there. *)
Lemma run_ext_forwards method params req_id w :
  forwards (req_path_of env req_id) w
    (_run_ext env self method params req_id w).2.
Proof.
  unfold _run_ext. rewrite bind_run.
  pose proof (ensure_req_path_forwards req_id w) as H0.
  destruct (ensure_req_path env req_id w) as [[[]|e] w0]; [|exact H0].
  simpl in H0. rewrite bind_run.
  pose proof (open_w_forwards (req_path_of env req_id) REQ_FIFO w0) as H1.
  destruct (open_w REQ_FIFO w0) as [[[]|e] w1];
    [|exact (forwards_trans _ _ _ _ H0 H1)].
  simpl in H1. rewrite bind_run.
  pose proof (open_r_world RESP_FIFO w1) as H2.
  destruct (open_r RESP_FIFO w1) as [[[]|e] w2]; simpl in H2; subst w2;
    [|exact (forwards_trans _ _ _ _ H0 H1)].
  rewrite bind_run.
  destruct (json_loads _) as [resp|];
    [|exact (forwards_trans _ _ _ _ H0 H1)].
  change ((mret resp : M json) w1) with (Ok resp, w1). cbv beta iota.
  rewrite check_response_world. exact (forwards_trans _ _ _ _ H0 H1).
Qed.

Lemma nested_calls_forwards req_id calls w :
  forwards (req_path_of env req_id) w (nested_calls env self req_id calls w).
Proof.
  revert w. induction calls as [|[method params] calls IH]; intros w; simpl.
  - apply forwards_refl.
  - eapply forwards_trans; [apply run_ext_forwards | apply IH].
Qed.

(** C7: the step that ensures the task directory returns at once, with
    the world as it was, when the path is there, and running it twice is
    running it once; over any sequence of
    nested calls with one task id the directory is created at most once,
    not at all if it was there at the start, and the forwarder removes
    nothing, so a directory that is there stays. *)
Theorem nested_calls_scratch_dir req_id calls w :
  let path := req_path_of env req_id in
  let w' := nested_calls env self req_id calls w in
  (present w path -> ensure_req_path env req_id w = (Ok tt, w)) /\
  (ensure_req_path env req_id;; ensure_req_path env req_id) w
  = ensure_req_path env req_id w /\
  (exists new,
     syslog w' = (syslog w ++ new)%list /\
     (mkdirs path new <= 1)%nat /\
     (forall p, ~ In (SysRemove p) new) /\
     (mkdirs path new = 1%nat -> present w' path)) /\
  (present w path ->
   present w' path /\ mkdirs path (skipn (length (syslog w)) (syslog w')) = O).
Proof.
  intros path w'. split; [apply ensure_req_path_present|].
  split; [apply ensure_req_path_twice|].
  destruct (nested_calls_forwards req_id calls w)
    as (new & L & R & Mn & C & P & Q).
  fold path in C, P, Q. fold w' in L, Mn, Q.
  assert (NR : forall p, ~ In (SysRemove p) new).
  { intros p Hin. unfold no_remove in R. rewrite Forall_forall in R.
    apply list_elem_of_In in Hin. specialize (R _ Hin). discriminate. }
  split.
  - exists new. auto.
  - intros Hp. split; [now apply Mn|].
    rewrite L, drop_app_length. now apply P.
Qed.

End Steps.

Lemma nested_calls_scratch_dir_witness :
  let calls := [("Default.echo", JArr [JStr "hi"]); ("Default.crash", JArr []);
                ("Default.echo", JArr [JStr "ho"])] in
  let w1 := nested_calls Scenario.env Scenario.self "task" calls
              Scenario.ready_world in
  let w2 := nested_calls Scenario.env Scenario.self "task" calls w1 in
  present w1 ".stackhut/task" /\
  mkdirs ".stackhut/task" (syslog w1) = 1%nat /\
  ensure_req_path Scenario.env "task" w1 = (Ok tt, w1) /\
  present w2 ".stackhut/task" /\
  mkdirs ".stackhut/task" (skipn (length (syslog w1)) (syslog w2)) = O.
Proof.
  intros calls w1 w2.
  assert (Hp : present w1 ".stackhut/task")
    by (exists Dir; vm_compute; reflexivity).
  destruct (nested_calls_scratch_dir Scenario.env Scenario.self "task" calls w1)
    as (Hidem & _ & _ & Hstay).
  split; [exact Hp|]. split; [vm_compute; reflexivity|].
  split; [exact (Hidem Hp)|]. exact (Hstay Hp).
Defined.

End Scratch.

(* ===================================================================== *)
(** * Cleanup *)
(* ===================================================================== *)

Module Cleanup.
Import PyValue Effects RunCommand Properties PyFacts EffectFacts.

Section FinallyBlock.
Variable env : Env.
Variable self : RunCmd.

(** The [finally] block stops at the first path that is not there:
    [os.remove] raises, and what comes after it is not run. *)
Lemma cleanup_request_channel_absent w w1 :
  del_shim (stack self) w = (Ok tt, w1) ->
  fs w1 !! REQ_FIFO = None ->
  cleanup env self w = (Raise (FileNotFoundError REQ_FIFO), w1).
Proof.
  intros Hd Hreq. unfold cleanup. rewrite bind_run, Hd, bind_run.
  unfold os_remove at 1. now rewrite Hreq.
Qed.

(** With the three files in place the block removes them. *)
Lemma cleanup_all_present w w1 k1 k2 k3 :
  del_shim (stack self) w = (Ok tt, w1) ->
  LOGFILE env <> REQ_FIFO -> LOGFILE env <> RESP_FIFO ->
  fs w1 !! REQ_FIFO = Some k1 -> k1 <> Dir ->
  fs w1 !! RESP_FIFO = Some k2 -> k2 <> Dir ->
  fs w1 !! LOGFILE env = Some k3 -> k3 <> Dir ->
  exists w',
    cleanup env self w = (Ok tt, w') /\
    fs w' = delete (LOGFILE env) (delete RESP_FIFO (delete REQ_FIFO (fs w1))).
Proof.
  intros Hd Hl1 Hl2 H1 K1 H2 K2 H3 K3.
  unfold cleanup. rewrite bind_run, Hd, bind_run.
  unfold os_remove at 1. rewrite H1.
  destruct k1; try contradiction; rewrite bind_run;
    unfold os_remove at 1; cbn [fs with_fs];
    (rewrite lookup_delete_ne by discriminate); rewrite H2;
    destruct k2; try contradiction;
    unfold os_remove; cbn [fs with_fs];
    rewrite !lookup_delete_ne by auto; rewrite H3;
    destruct k3; try contradiction; eexists; split; reflexivity.
Qed.

End FinallyBlock.

(** C1, on a request without a [req] field in a directory where an
    earlier run left its response channel behind: startup fails before
    the channels are made, the [finally] block raises on the request
    channel, which is not there, and the stale response channel stays on
    disk.  The dispatcher is never reached, so it can be any. *)
Theorem run_malformed_cleanup_raises (server : json -> Callback -> M json) :
  let self := {| stack := Scenario.python_stack; server_call := server |} in
  let w := Scenario.stale_world (Document Scenario.no_req_request) in
  (run Scenario.env self w).1 = Raise (FileNotFoundError "req.json") /\
  fs (run Scenario.env self w).2 !! "resp.json" = Some Fifo.
Proof. split; vm_compute; reflexivity. Qed.

(** The same request in a clean directory, and a well-formed one. *)
Example run_malformed_clean_directory :
  (run Scenario.env Scenario.self
     (Scenario.clean_world (Document Scenario.no_req_request))).1
  = Raise (FileNotFoundError "req.json").
Proof. vm_compute. reflexivity. Qed.

Example run_echo :
  let w' := (run Scenario.env Scenario.self
               (Scenario.clean_world (Document Scenario.echo_request))).2 in
  (run Scenario.env Scenario.self
     (Scenario.clean_world (Document Scenario.echo_request))).1 = Ok 0 /\
  fs w' !! "req.json" = None /\ fs w' !! "resp.json" = None /\
  fs w' !! ".stackhut.log" = None.
Proof. repeat split; vm_compute; reflexivity. Qed.

End Cleanup.

(* ===================================================================== *)
(** * More on the Envelope Normalizer *)
(* ===================================================================== *)

Module NormalizerMore.
Import PyValue Effects RunCommand Properties Coverage PyFacts EffectFacts.

Section OneRequest.
Variable env : Env.

Lemma after_id_lookup d w :
  match dict_get "id" (if dict_has "jsonrpc" d then d
                       else dict_set "jsonrpc" (JStr "2.0") d) with
  | Some v => (py_str (repr_str env) v, w)
  | None => (next_uuid env w, drawn w)
  end = (ident_for env d w, after_id d w).
Proof.
  assert (E : dict_get "id" (if dict_has "jsonrpc" d then d
                             else dict_set "jsonrpc" (JStr "2.0") d)
              = dict_get "id" d).
  { destruct (dict_has "jsonrpc" d); [reflexivity|].
    apply dict_get_set_ne. discriminate. }
  rewrite E. unfold ident_for, after_id, dict_has.
  destruct (dict_get "id" d); reflexivity.
Qed.

Lemma method_lookup d s :
  dict_get "method"
    (dict_set "id" s (if dict_has "jsonrpc" d then d
                      else dict_set "jsonrpc" (JStr "2.0") d))
  = dict_get "method" d.
Proof.
  rewrite dict_get_set_ne by discriminate.
  destruct (dict_has "jsonrpc" d); [reflexivity|].
  apply dict_get_set_ne. discriminate.
Qed.

(** The outcome of [_make_json_rpc] on an object, by its method field. *)
Lemma make_json_rpc_cases d w :
  _make_json_rpc env (JObj d) w
  = (match dict_get "method" d with
     | None => Raise (KeyError "method")
     | Some (JStr m) => Ok (JObj (normalized env d m w))
     | Some _ => Raise (AttributeError "find")
     end, after_id d w).
Proof.
  rewrite make_json_rpc_object. cbv zeta. rewrite after_id_lookup.
  rewrite method_lookup. unfold normalized.
  destruct (dict_get "method" d) as [[| b | n | m | l | o]|]; try reflexivity.
  destruct (str_find "." m <? 0); reflexivity.
Qed.

(** X1: the requests that [_make_json_rpc] refuses.  A value that is not
    an object ends in [TypeError]; an object without a method in
    [KeyError]; an object whose method is not a string in
    [AttributeError].  In the last two cases the object has gone through
    [gen_id] by then: an identifier was drawn if it had none. *)
Theorem make_json_rpc_refusals req w :
  ((forall d, req <> JObj d) ->
   (_make_json_rpc env req w).1 = Raise TypeError) /\
  (forall d, req = JObj d -> dict_get "method" d = None ->
     _make_json_rpc env req w = (Raise (KeyError "method"), after_id d w)) /\
  (forall d v, req = JObj d -> dict_get "method" d = Some v ->
     (forall m, v <> JStr m) ->
     _make_json_rpc env req w = (Raise (AttributeError "find"), after_id d w)).
Proof.
  split; [apply make_json_rpc_not_object|]. split.
  - intros d -> Hm. now rewrite make_json_rpc_cases, Hm.
  - intros d v -> Hm Hv. rewrite make_json_rpc_cases, Hm.
    destruct v as [| b | n | m | l | o]; try reflexivity.
    now destruct (Hv m).
Qed.

Lemma normalized_lookups d m w :
  dict_get "method" d = Some (JStr m) ->
  let out := normalized env d m w in
  dict_get "jsonrpc" out
  = Some (match dict_get "jsonrpc" d with Some v => v | None => JStr "2.0" end)
  /\ dict_get "id" out = Some (JStr (ident_for env d w))
  /\ dict_get "method" out = Some (JStr (qualified m)).
Proof.
  intros Hm out. subst out. unfold normalized, qualified.
  set (d1 := if dict_has "jsonrpc" d then d
             else dict_set "jsonrpc" (JStr "2.0") d).
  assert (J : dict_get "jsonrpc" d1
              = Some (match dict_get "jsonrpc" d with
                      | Some v => v | None => JStr "2.0" end)).
  { subst d1. unfold dict_has. destruct (dict_get "jsonrpc" d) eqn:E;
      [exact E | apply dict_get_set_eq]. }
  assert (Hm1 : dict_get "method" d1 = Some (JStr m)).
  { subst d1. destruct (dict_has "jsonrpc" d); [exact Hm|].
    now rewrite dict_get_set_ne by discriminate. }
  destruct (str_find "." m <? 0).
  - rewrite !(dict_get_set_ne _ "method") by discriminate.
    rewrite dict_get_set_ne by discriminate. rewrite J.
    rewrite !dict_get_set_eq. auto.
  - rewrite dict_get_set_ne by discriminate. rewrite J.
    rewrite dict_get_set_eq, dict_get_set_ne by discriminate. auto.
Qed.

Lemma qualified_has_separator m : (str_find "." (qualified m) <? 0) = false.
Proof.
  destruct (str_find "." (qualified m) <? 0) eqn:E; [|reflexivity].
  apply str_find_absent in E.
  pose proof (proj1 (Normalizer.separators_qualified m)) as H.
  unfold separators in H. lia.
Qed.

(** X2: normalization is idempotent.  A request that [_make_json_rpc]
    returned is returned unchanged when it is normalized again, in any
    world, and no identifier is drawn for it. *)
Theorem make_json_rpc_idempotent req w out w' :
  _make_json_rpc env req w = (Ok out, w') ->
  forall w2, _make_json_rpc env out w2 = (Ok out, w2).
Proof.
  intros H w2.
  destruct req as [| b | n | s | l | d];
    try (match type of H with
         | _make_json_rpc _ ?x _ = _ =>
             assert (E : (_make_json_rpc env x w).1 = Raise TypeError)
               by (apply make_json_rpc_not_object; discriminate);
             rewrite H in E; discriminate
         end).
  rewrite make_json_rpc_cases in H.
  destruct (dict_get "method" d) as [[| b | n | m | l | o]|] eqn:Hm;
    try discriminate.
  injection H as <- <-.
  destruct (normalized_lookups d m w Hm) as (Hj & Hi & Hq).
  set (out := normalized env d m w) in *.
  rewrite make_json_rpc_cases, Hq. unfold after_id, dict_has. rewrite Hi.
  f_equal. f_equal. f_equal. unfold normalized, dict_has, ident_for.
  rewrite Hj, Hi, qualified_has_separator.
  cbn [py_str]. now apply dict_set_same.
Qed.

(** X3: what normalization writes.  The protocol version is ["2.0"] only
    when the request had none: a version that is there is kept, whatever
    it is.  A method with a separator is kept as it is, and a method
    without one gets the prefix ["Default."]. *)
Theorem make_json_rpc_fields req w out w' :
  _make_json_rpc env req w = (Ok out, w') ->
  exists m,
    method_of req = Some m /\
    (forall v, field "jsonrpc" req = Some v -> field "jsonrpc" out = Some v) /\
    (field "jsonrpc" req = None -> field "jsonrpc" out = Some (JStr "2.0")) /\
    (separators m = O -> method_of out = Some ("Default." +:+ m)) /\
    (separators m <> O -> method_of out = Some m).
Proof.
  intros H.
  destruct req as [| b | n | s | l | d];
    try (match type of H with
         | _make_json_rpc _ ?x _ = _ =>
             assert (E : (_make_json_rpc env x w).1 = Raise TypeError)
               by (apply make_json_rpc_not_object; discriminate);
             rewrite H in E; discriminate
         end).
  rewrite make_json_rpc_cases in H.
  destruct (dict_get "method" d) as [[| b | n | m | l | o]|] eqn:Hm;
    try discriminate.
  injection H as <- <-.
  destruct (normalized_lookups d m w Hm) as (Hj & _ & Hq).
  exists m. cbn [method_of field]. rewrite Hm, Hq, Hj.
  split; [reflexivity|]. split; [now intros v ->|]. split; [now intros ->|].
  unfold qualified, separators. split; intros Hs.
  - apply str_find_absent in Hs. now rewrite Hs.
  - destruct (str_find "." m <? 0) eqn:E; [|reflexivity].
    apply str_find_absent in E. contradiction.
Qed.

End OneRequest.

Section Batch.
Variable env : Env.

Lemma make_json_rpc_ok_world x w out w' :
  _make_json_rpc env x w = (Ok out, w') ->
  w' = if has_field "id" x then w else drawn w.
Proof.
  intros H.
  destruct x as [| b | n | s | l | d];
    try (match type of H with
         | _make_json_rpc _ ?x _ = _ =>
             assert (E : (_make_json_rpc env x w).1 = Raise TypeError)
               by (apply make_json_rpc_not_object; discriminate);
             rewrite H in E; discriminate
         end).
  rewrite make_json_rpc_cases in H. injection H as _ <-. reflexivity.
Qed.

Lemma mapM_make_json_rpc_world l w l' w' :
  mapM (_make_json_rpc env) l w = (Ok l', w') ->
  w' = drawn_n (missing_ids l) w /\ length l' = length l.
Proof.
  revert w l' w'. induction l as [|x l IH]; intros w l' w' H.
  - injection H as <- <-. split; reflexivity.
  - simpl in H. rewrite bind_run in H.
    destruct (_make_json_rpc env x w) as [[y|e] w1] eqn:Ex; [|discriminate].
    rewrite bind_run in H.
    destruct (mapM (_make_json_rpc env) l w1) as [[ys|e] w2] eqn:El;
      [|discriminate].
    injection H as <- <-. apply make_json_rpc_ok_world in Ex.
    destruct (IH _ _ _ El) as [-> Hlen]. subst w1.
    unfold missing_ids. simpl.
    destruct (has_field "id" x); simpl; (split; [reflexivity | congruence]).
Qed.

(** The identifier of each element of a normalized batch: the string
    form of the one it came with, or the identifier drawn after those of
    the elements before it that came without one. *)
Lemma mapM_make_json_rpc_ids l w l' w' :
  mapM (_make_json_rpc env) l w = (Ok l', w') ->
  forall i x y, l !! i = Some x -> l' !! i = Some y ->
    id_of y
    = Some (match field "id" x with
            | Some v => py_str (repr_str env) v
            | None =>
                uuid_str (uuid4_int
                  (urandom env (draws w + missing_ids (take i l))))
            end).
Proof.
  revert w l' w'. induction l as [|x0 l IH]; intros w l' w' H i x y Hx Hy.
  - destruct i; discriminate.
  - cbn [mapM] in H. rewrite bind_run in H.
    destruct (_make_json_rpc env x0 w) as [[y0|e] w1] eqn:Ex; [|discriminate].
    rewrite bind_run in H.
    destruct (mapM (_make_json_rpc env) l w1) as [[ys|e] w2] eqn:El;
      [|discriminate].
    injection H as <- <-.
    destruct i as [|i].
    + injection Hx as <-. injection Hy as <-.
      apply make_json_rpc_ok_inv in Ex.
      destruct Ex as (d & m & dout & -> & -> & _ & _ & Hid & _).
      cbn [id_of field take]. rewrite Hid. unfold ident_for, next_uuid.
      change (missing_ids []) with O. rewrite Nat.add_0_r. reflexivity.
    + change ((x0 :: l) !! S i) with (l !! i) in Hx.
      change ((y0 :: ys) !! S i) with (ys !! i) in Hy.
      rewrite (IH _ _ _ El i x y Hx Hy).
      apply make_json_rpc_ok_world in Ex. subst w1.
      assert (D : (draws (if has_field "id" x0 then w else drawn w)
                   + missing_ids (take i l)
                   = draws w + missing_ids (take (S i) (x0 :: l)))%nat).
      { cbn [take]. unfold missing_ids. cbn [List.filter].
        destruct (has_field "id" x0); cbn [negb length draws drawn]; lia. }
      now rewrite D.
Qed.

(** X4: the identifiers of a batch.  When a batch is normalized, one
    identifier is drawn for each element that comes without an id, in the
    order of the batch, and none for the others: the element at index [i]
    keeps the string form of its own id if it has one, and otherwise gets
    the identifier of draw number [draws w + k], where [k] elements
    before it came without an id.  Nothing else in the world changes, and
    the batch keeps its length.  The empty batch is returned as it is. *)
Theorem normalize_reqs_draws l w out w' :
  normalize_reqs env (JArr l) w = (Ok out, w') ->
  w' = drawn_n (missing_ids l) w /\
  draws w' = (draws w + missing_ids l)%nat /\
  fs w' = fs w /\ store w' = store w /\ syslog w' = syslog w /\
  exists l', out = JArr l' /\ length l' = length l /\
    forall i x y, l !! i = Some x -> l' !! i = Some y ->
      id_of y
      = Some (match field "id" x with
              | Some v => py_str (repr_str env) v
              | None =>
                  uuid_str (uuid4_int
                    (urandom env (draws w + missing_ids (take i l))))
              end).
Proof.
  unfold normalize_reqs. rewrite bind_run.
  destruct (mapM (_make_json_rpc env) l w) as [[l'|e] w1] eqn:E;
    [|discriminate].
  intros [= <- <-].
  pose proof (mapM_make_json_rpc_ids _ _ _ _ E) as Hids.
  destruct (mapM_make_json_rpc_world _ _ _ _ E) as [-> Hl].
  split; [reflexivity|].
  assert (G : forall n v, draws (drawn_n n v) = (draws v + n)%nat /\
                          fs (drawn_n n v) = fs v /\
                          store (drawn_n n v) = store v /\
                          syslog (drawn_n n v) = syslog v).
  { induction n as [|n IHn]; intros v; simpl; [repeat split; lia|].
    destruct (IHn (drawn v)) as (D & F & S' & L). rewrite D, F, S', L.
    simpl. repeat split. lia. }
  destruct (G (missing_ids l) w) as (D & F & S' & L).
  do 4 (split; [assumption|]).
  exists l'. split; [reflexivity|]. split; [exact Hl | exact Hids].
Qed.

(** A [req] value made of objects with a method string is normalized,
    and the result has its shape. *)
Lemma normalize_reqs_returns reqs w :
  is_req_value reqs ->
  exists out w',
    normalize_reqs env reqs w = (Ok out, w') /\ same_shape reqs out.
Proof.
  intros Hwf.
  assert (Hone : forall x v, is_request x ->
            exists out v', _make_json_rpc env x v = (Ok out, v') /\
                           same_payload x out).
  { intros x v Hx.
    destruct (Shape.make_json_rpc_accepts env x v Hx) as (out & v' & E).
    exists out, v'. split; [exact E|].
    exact (Shape.make_json_rpc_same_payload env x v out v' E). }
  destruct reqs as [| b | n | s | l | d]; try (now apply Hone).
  simpl in Hwf. unfold normalize_reqs.
  destruct (Shape.mapM_total (_make_json_rpc env) is_request
              (fun a v Ha => Shape.make_json_rpc_accepts env a v Ha) l w Hwf)
    as (l' & w' & E).
  exists (JArr l'), w'. rewrite bind_run, E. split; [reflexivity|].
  exists l'. split; [reflexivity|].
  eapply Shape.mapM_ok_inv; [|exact E].
  intros a v b0 v'. apply Shape.make_json_rpc_same_payload.
Qed.

Lemma mapM_first_refusal good bad rest e w :
  Forall is_request good ->
  (forall v, (_make_json_rpc env bad v).1 = Raise e) ->
  (mapM (_make_json_rpc env) (good ++ bad :: rest) w).1 = Raise e.
Proof.
  intros Hgood Hbad.
  revert w. induction Hgood as [|x good Hx Hgood IH]; intros w; simpl.
  - rewrite bind_run. specialize (Hbad w).
    destruct (_make_json_rpc env bad w) as [[y|e0] w1]; simpl in Hbad;
      [discriminate|]. now injection Hbad as ->.
  - rewrite bind_run.
    destruct (Shape.make_json_rpc_accepts env x w Hx) as (y & w1 & ->).
    rewrite bind_run. specialize (IH w1).
    destruct (mapM (_make_json_rpc env) (good ++ bad :: rest) w1)
      as [[ys|e0] w2]; simpl in IH; [discriminate|].
    now injection IH as ->.
Qed.

(** X5: one bad element fails the batch.  If the elements before it are
    objects with a method string and [_make_json_rpc] refuses the element
    itself with [e] in every world, the batch ends in [e], whatever comes
    after that element. *)
Theorem normalize_reqs_first_refusal good bad rest e w :
  Forall is_request good ->
  (forall v, (_make_json_rpc env bad v).1 = Raise e) ->
  (normalize_reqs env (JArr (good ++ bad :: rest)) w).1 = Raise e.
Proof.
  intros Hgood Hbad. unfold normalize_reqs. rewrite bind_run.
  pose proof (mapM_first_refusal good bad rest e w Hgood Hbad) as G.
  destruct (mapM (_make_json_rpc env) (good ++ bad :: rest) w) as [[ys|e0] w1];
    simpl in G; [discriminate|]. now injection G as ->.
Qed.

End Batch.

Lemma make_json_rpc_refusals_witness :
  (_make_json_rpc Scenario.env (JInt 3) Scenario.ready_world).1
  = Raise TypeError /\
  (_make_json_rpc Scenario.env (JObj [("params", JArr [])])
     Scenario.ready_world).1 = Raise (KeyError "method") /\
  (_make_json_rpc Scenario.env (JObj [("method", JInt 7)])
     Scenario.ready_world).1 = Raise (AttributeError "find").
Proof.
  destruct (make_json_rpc_refusals Scenario.env (JInt 3) Scenario.ready_world)
    as (H1 & _ & _).
  destruct (make_json_rpc_refusals Scenario.env (JObj [("params", JArr [])])
              Scenario.ready_world) as (_ & H2 & _).
  destruct (make_json_rpc_refusals Scenario.env (JObj [("method", JInt 7)])
              Scenario.ready_world) as (_ & _ & H3).
  split; [apply H1; discriminate|]. split.
  - now rewrite (H2 _ eq_refl eq_refl).
  - rewrite (H3 _ (JInt 7) eq_refl eq_refl); [reflexivity | discriminate].
Defined.

Lemma make_json_rpc_idempotent_witness :
  let raw := JObj [("method", JStr "echo"); ("id", JInt 7)] in
  let out := JObj [("method", JStr "Default.echo"); ("id", JStr "7");
                   ("jsonrpc", JStr "2.0")] in
  _make_json_rpc Scenario.env raw Scenario.ready_world
  = (Ok out, Scenario.ready_world) /\
  _make_json_rpc Scenario.env out (Scenario.clean_world (Document JNull))
  = (Ok out, Scenario.clean_world (Document JNull)).
Proof.
  intros raw out.
  assert (H : _make_json_rpc Scenario.env raw Scenario.ready_world
              = (Ok out, Scenario.ready_world)) by reflexivity.
  split; [exact H|].
  exact (make_json_rpc_idempotent Scenario.env raw _ out _ H _).
Defined.

Lemma make_json_rpc_fields_witness :
  let raw := JObj [("jsonrpc", JStr "1.0"); ("method", JStr "Math.add");
                   ("id", JInt 7)] in
  exists out w',
    _make_json_rpc Scenario.env raw Scenario.ready_world = (Ok out, w') /\
    field "jsonrpc" out = Some (JStr "1.0") /\
    method_of out = Some "Math.add".
Proof.
  intros raw. eexists _, _. split; [reflexivity|].
  destruct (make_json_rpc_fields Scenario.env raw Scenario.ready_world _ _
              eq_refl) as (m & Hm & Hv & _ & _ & Hkeep).
  split; [apply Hv; reflexivity|].
  injection Hm as <-. apply Hkeep. vm_compute. discriminate.
Defined.

Lemma normalize_reqs_draws_witness :
  let batch := [JObj [("method", JStr "echo")];
                JObj [("method", JStr "echo"); ("id", JInt 7)];
                JObj [("method", JStr "Math.add")]] in
  exists out w',
    normalize_reqs Scenario.env (JArr batch) Scenario.ready_world
    = (Ok out, w') /\
    draws w' = (draws Scenario.ready_world + 2)%nat /\
    fs w' = fs Scenario.ready_world /\
    exists l', out = JArr l' /\
      (forall y, l' !! 1%nat = Some y -> id_of y = Some "7") /\
      (forall y, l' !! 2%nat = Some y ->
         id_of y = Some (uuid_str (uuid4_int (urandom Scenario.env 2)))).
Proof.
  intros batch.
  destruct (normalize_reqs_returns Scenario.env (JArr batch)
              Scenario.ready_world) as (out & w' & E & _).
  { repeat constructor; eexists _, _; split; reflexivity. }
  exists out, w'. split; [exact E|].
  destruct (normalize_reqs_draws Scenario.env batch _ _ _ E)
    as (_ & D & F & _ & _ & l' & Hout & _ & Hids).
  split; [exact D|]. split; [exact F|].
  exists l'. split; [exact Hout|]. split; intros y Hy.
  - exact (Hids 1%nat _ y eq_refl Hy).
  - exact (Hids 2%nat _ y eq_refl Hy).
Defined.

Lemma normalize_reqs_first_refusal_witness :
  Forall is_request [JObj [("method", JStr "echo")]] /\
  (forall v, (_make_json_rpc Scenario.env (JInt 3) v).1 = Raise TypeError) /\
  (normalize_reqs Scenario.env
     (JArr ([JObj [("method", JStr "echo")]] ++ JInt 3
              :: [JObj [("method", JStr "late")]])%list)
     Scenario.ready_world).1 = Raise TypeError.
Proof.
  assert (Hgood : Forall is_request [JObj [("method", JStr "echo")]]).
  { repeat constructor. eexists _, _. split; reflexivity. }
  assert (Hbad : forall v,
             (_make_json_rpc Scenario.env (JInt 3) v).1 = Raise TypeError).
  { intros v. apply make_json_rpc_not_object. discriminate. }
  split; [exact Hgood|]. split; [exact Hbad|].
  exact (normalize_reqs_first_refusal Scenario.env _ (JInt 3) _ TypeError
           Scenario.ready_world Hgood Hbad).
Defined.

End NormalizerMore.

(* ===================================================================== *)
(** * What a statement leaves alone *)
(* ===================================================================== *)

Module Frames.
Import PyValue Effects RunCommand Properties Coverage PyFacts EffectFacts.

Section Keeps.
Context {X : Type} (part : World -> X).

Lemma keeps_bind {A B : Type} (m : M A) (k : A -> M B) :
  keeps part m -> (forall a, keeps part (k a)) -> keeps part (m ≫= k).
Proof.
  intros Hm Hk w. rewrite bind_run. specialize (Hm w).
  destruct (m w) as [[a|e] w1]; simpl in Hm.
  - now rewrite Hk.
  - exact Hm.
Qed.

Lemma keeps_pure {A : Type} (m : M A) :
  (forall w, (m w).2 = w) -> keeps part m.
Proof. intros H w. now rewrite H. Qed.

Lemma keeps_ret {A : Type} (a : A) : keeps part (mret a : M A).
Proof. now apply keeps_pure. Qed.

Lemma keeps_raise {A : Type} (e : exn) : keeps part (raise e : M A).
Proof. now apply keeps_pure. Qed.

Lemma keeps_if {A : Type} (b : bool) (m1 m2 : M A) :
  keeps part m1 -> keeps part m2 -> keeps part (if b then m1 else m2).
Proof. now destruct b. Qed.

Lemma keeps_mapM {A B : Type} (f : A -> M B) (l : list A) :
  (forall a, keeps part (f a)) -> keeps part (mapM f l).
Proof.
  intros Hf. induction l as [|a l IH]; simpl.
  - apply keeps_ret.
  - apply keeps_bind; [apply Hf|]. intros b.
    apply keeps_bind; [apply IH|]. intros bs. apply keeps_ret.
Qed.

Lemma keeps_py_in k x : keeps part (py_in k x).
Proof. apply keeps_pure. intros w. destruct x; reflexivity. Qed.

Lemma keeps_subscript x k : keeps part (subscript x k).
Proof.
  apply keeps_pure. intros w. destruct x; try reflexivity.
  simpl. destruct (dict_get k fields); reflexivity.
Qed.

Lemma keeps_setitem x k v : keeps part (setitem x k v).
Proof. apply keeps_pure. intros w. destruct x; reflexivity. Qed.

Lemma keeps_find_method x c : keeps part (find_method x c).
Proof. apply keeps_pure. intros w. destruct x; reflexivity. Qed.

Lemma keeps_os_path_exists p : keeps part (os_path_exists p).
Proof. now apply keeps_pure. Qed.

Lemma keeps_open_r p : keeps part (open_r p).
Proof.
  apply keeps_pure. intros w. unfold open_r.
  destruct (fs w !! p) as [[]|]; reflexivity.
Qed.
End Keeps.

Create HintDb keeps.

#[export] Hint Resolve keeps_py_in keeps_subscript keeps_setitem
  keeps_find_method keeps_os_path_exists keeps_open_r : keeps.

Ltac keeps_step :=
  first [ apply keeps_ret
        | apply keeps_raise
        | apply keeps_bind; [|intros ?]
        | apply keeps_if ].

Ltac keeps_all := repeat first [ solve [auto with keeps] | keeps_step ].

(** ** The calls of [os] touch neither the store nor the entropy *)

Section OsKeeps.
Context {X : Type} (part : World -> X).
Hypothesis part_with_fs : forall w f c, part (with_fs w f c) = part w.

Lemma keeps_os_remove p : keeps part (os_remove p).
Proof.
  intros w. unfold os_remove.
  destruct (fs w !! p) as [[]|]; simpl; auto.
Qed.

Lemma keeps_os_mkfifo p : keeps part (os_mkfifo p).
Proof.
  intros w. unfold os_mkfifo. destruct (fs w !! p); [reflexivity|].
  destruct (has_parent (fs w) p); simpl; auto.
Qed.

Lemma keeps_os_mkdir p : keeps part (os_mkdir p).
Proof.
  intros w. unfold os_mkdir. destruct (fs w !! p); [reflexivity|].
  destruct (has_parent (fs w) p); simpl; auto.
Qed.

Lemma keeps_open_w p : keeps part (open_w p).
Proof.
  intros w. unfold open_w. destruct (fs w !! p) as [[]|]; try reflexivity.
  destruct (has_parent (fs w) p); simpl; auto.
Qed.

Lemma keeps_remove_if_exists p : keeps part (remove_if_exists p).
Proof.
  unfold remove_if_exists. pose proof keeps_os_remove. keeps_all.
Qed.
End OsKeeps.

(** ** Normalization touches the entropy alone *)

Section NormalKeeps.
Context {X : Type} (part : World -> X).
Hypothesis part_drawn : forall w, part (drawn w) = part w.
Variable env : Env.

Lemma keeps_fresh_uuid : keeps part (fresh_uuid env).
Proof. intros w. apply part_drawn. Qed.

Lemma keeps_gen_id d v : keeps part (gen_id env d v).
Proof. unfold gen_id. pose proof keeps_fresh_uuid. keeps_all. Qed.

Lemma keeps_make_json_rpc req : keeps part (_make_json_rpc env req).
Proof. unfold _make_json_rpc. pose proof keeps_gen_id. keeps_all. Qed.

Lemma keeps_normalize_reqs reqs : keeps part (normalize_reqs env reqs).
Proof.
  pose proof keeps_make_json_rpc as H.
  destruct reqs; unfold normalize_reqs; auto.
  apply keeps_bind; [now apply keeps_mapM|]. intros l. apply keeps_ret.
Qed.
End NormalKeeps.

End Frames.

(* ===================================================================== *)
(** * More on startup *)
(* ===================================================================== *)

Module StartupMore.
Import PyValue Effects RunCommand Properties Coverage PyFacts EffectFacts.
Import Startup Frames NormalizerMore.

Lemma bind_assoc {A B C : Type} (m : M A) (f : A -> M B) (g : B -> M C) w :
  ((m ≫= f) ≫= g) w = (m ≫= (fun a => f a ≫= g)) w.
Proof.
  rewrite !bind_run. destruct (m w) as [[a|e] w1]; [|reflexivity].
  now rewrite bind_run.
Qed.

Lemma bind_ext {A B : Type} (m : M A) (f g : A -> M B) w :
  (forall a v, f a v = g a v) -> (m ≫= f) w = (m ≫= g) w.
Proof.
  intros H. rewrite !bind_run. destruct (m w) as [[a|e] w1]; auto.
Qed.

Section Cases.
Variable env : Env.
Variable self : RunCmd.

(** X6: a request that cannot be fetched or parsed fails startup with
    [ParseError] and leaves the world as it was: no task id is recorded,
    no identifier drawn, no file touched. *)
Theorem startup_parse_failure_atomic w :
  (request (store w) = None \/
   exists doc, request (store w) = Some doc /\ json_loads doc = None) ->
  _startup env self w = (Raise ParseError, w).
Proof.
  intros [Hr | (doc & Hr & Hl)].
  - unfold _startup. now rewrite bind_run, startup_load, Hr.
  - now apply (startup_garbled env self w doc).
Qed.

(** For an object payload, lines 55-68 end with the task id in the
    store, and the rest runs from there. *)
Lemma startup_object w doc d :
  request (store w) = Some doc -> json_loads doc = Some (JObj d) ->
  _startup env self w
  = startup_tail env self
      (JObj (dict_set "id" (JStr (ident_for env d w)) d))
      (with_store (after_id d w) (with_task_id env d w)).
Proof.
  intros Hr Hl. unfold _startup. rewrite bind_run, startup_load, Hr, Hl.
  rewrite bind_run. unfold ident_for, after_id, with_task_id, dict_has.
  destruct (dict_get "id" d) as [v|] eqn:Eid.
  - rewrite (gen_id_present env d "id" v w Eid).
    rewrite bind_run. cbn [subscript]. rewrite dict_get_set_eq.
    change ((mret (JStr (py_str (repr_str env) v)) : M json) w)
      with (Ok (JStr (py_str (repr_str env) v)), w).
    cbv beta iota. rewrite bind_run. cbn [store_set_task_id].
    unfold ident_for. rewrite Eid. reflexivity.
  - rewrite (gen_id_absent env d "id" w Eid).
    rewrite bind_run. cbn [subscript]. rewrite dict_get_set_eq.
    change ((mret (JStr (next_uuid env w)) : M json) (drawn w))
      with (Ok (JStr (next_uuid env w)), drawn w).
    cbv beta iota. rewrite bind_run. cbn [store_set_task_id].
    unfold ident_for. rewrite Eid. reflexivity.
Qed.

Lemma keeps_store_startup_tail x :
  keeps store (copy_shim (stack self)) -> keeps store (startup_tail env self x).
Proof.
  intros Hshim. unfold startup_tail.
  pose proof (keeps_normalize_reqs store (fun _ => eq_refl) env).
  pose proof (keeps_remove_if_exists store (fun _ _ _ => eq_refl)).
  pose proof (keeps_os_mkfifo store (fun _ _ _ => eq_refl)).
  keeps_all.
Qed.

(** X7: the task id of an object payload is always recorded.  Whatever
    the outcome of startup, return or failure, the store ends with the
    string form of the payload's id (or a drawn identifier) as task id
    and is otherwise as it was, given that the stack's [copy_shim] leaves
    the store alone. *)
Theorem startup_records_task_id w doc d :
  keeps store (copy_shim (stack self)) ->
  request (store w) = Some doc -> json_loads doc = Some (JObj d) ->
  store (_startup env self w).2 = with_task_id env d w.
Proof.
  intros Hshim Hr Hl. rewrite (startup_object w doc d Hr Hl).
  now rewrite keeps_store_startup_tail.
Qed.

(** ** The channels *)

Lemma remove_if_exists_removable p w :
  removable w p ->
  exists w1,
    remove_if_exists p w = (Ok tt, w1) /\ fs w1 = delete p (fs w) /\
    store w1 = store w.
Proof.
  unfold removable, remove_if_exists, os_path_exists. intros Hp.
  rewrite bind_run. unfold os_remove.
  destruct (fs w !! p) as [k|] eqn:E.
  - rewrite bool_decide_eq_true_2 by eauto. rewrite E.
    destruct k; try (now destruct Hp); eexists; repeat split.
  - rewrite bool_decide_eq_false_2 by (intros [x Hx]; discriminate).
    exists w. repeat split. now rewrite delete_id.
Qed.

Lemma recreate_channels_ok w :
  removable w REQ_FIFO -> removable w RESP_FIFO ->
  exists w',
    recreate_channels w = (Ok tt, w') /\
    fs w' !! REQ_FIFO = Some Fifo /\ fs w' !! RESP_FIFO = Some Fifo /\
    (forall p, p <> REQ_FIFO -> p <> RESP_FIFO -> fs w' !! p = fs w !! p) /\
    store w' = store w.
Proof.
  intros H1 H2. unfold recreate_channels.
  destruct (remove_if_exists_removable REQ_FIFO w H1) as (w1 & E1 & F1 & S1).
  assert (H2' : removable w1 RESP_FIFO).
  { unfold removable in *. rewrite F1, lookup_delete_ne by discriminate.
    exact H2. }
  destruct (remove_if_exists_removable RESP_FIFO w1 H2')
    as (w2 & E2 & F2 & S2).
  rewrite bind_run, E1, bind_run, E2, bind_run.
  assert (N1 : fs w2 !! REQ_FIFO = None).
  { rewrite F2, lookup_delete_ne, F1 by discriminate.
    apply lookup_delete_eq. }
  unfold os_mkfifo at 1. rewrite N1. cbn [has_parent parent_dir
    before_last_slash REQ_FIFO rstrip_slash String.eqb Ascii.eqb
    Bool.eqb].
  unfold os_mkfifo. cbn [fs with_fs].
  rewrite lookup_insert_ne by discriminate.
  rewrite F2, lookup_delete_eq.
  cbn [has_parent parent_dir before_last_slash RESP_FIFO rstrip_slash
       String.eqb Ascii.eqb Bool.eqb].
  eexists. split; [reflexivity|]. cbn [fs with_fs store].
  rewrite lookup_insert_ne, !lookup_insert_eq by discriminate.
  repeat split; [| congruence].
  intros p P1 P2. rewrite !lookup_insert_ne by congruence.
  rewrite lookup_delete_ne by congruence. rewrite F1.
  apply lookup_delete_ne. congruence.
Qed.

(** X8: lines 87-90 always start from fresh channels.  Whatever sits at
    the two channel paths, a file, a channel of an earlier run or
    nothing, is replaced by a new FIFO, and no other path and nothing in
    the store changes; only a directory at a channel path stops them,
    with [IsADirectoryError]. *)
Theorem recreate_channels_fresh w :
  (removable w REQ_FIFO -> removable w RESP_FIFO ->
   exists w',
     recreate_channels w = (Ok tt, w') /\
     fs w' !! REQ_FIFO = Some Fifo /\ fs w' !! RESP_FIFO = Some Fifo /\
     (forall p, p <> REQ_FIFO -> p <> RESP_FIFO -> fs w' !! p = fs w !! p) /\
     store w' = store w) /\
  (fs w !! REQ_FIFO = Some Dir ->
   recreate_channels w = (Raise (IsADirectoryError REQ_FIFO), w)).
Proof.
  split; [apply recreate_channels_ok|].
  intros Hd. unfold recreate_channels, remove_if_exists, os_path_exists.
  rewrite !bind_run. rewrite bool_decide_eq_true_2 by eauto.
  unfold os_remove. now rewrite Hd.
Qed.

(** After normalization, [_startup] is the channels, the shim and the
    result. *)
Lemma startup_tail_with_req d reqs v :
  dict_get "req" d = Some reqs ->
  startup_tail env self (JObj d) v
  = (out ← normalize_reqs env reqs;
     recreate_channels;; copy_shim (stack self);; mret out) v.
Proof.
  intros Hreq. unfold startup_tail. rewrite bind_run. cbn [py_in].
  unfold dict_has. rewrite Hreq.
  change ((mret true : M bool) v) with (Ok true, v). cbv beta iota.
  rewrite bind_assoc, bind_run. cbn [subscript]. rewrite Hreq.
  change ((mret reqs : M json) v) with (Ok reqs, v). cbv beta iota.
  rewrite !(bind_run (normalize_reqs env reqs)).
  destruct (normalize_reqs env reqs v) as [[out|e] v1]; [|reflexivity].
  unfold recreate_channels. rewrite bind_assoc.
  apply bind_ext; intros [] v2. rewrite bind_assoc.
  apply bind_ext; intros [] v3. rewrite bind_assoc. reflexivity.
Qed.

Lemma after_id_parts d w :
  fs (after_id d w) = fs w /\ store (after_id d w) = store w /\
  syslog (after_id d w) = syslog w.
Proof. unfold after_id. destruct (dict_has "id" d); repeat split. Qed.


(** X10: a [req] that normalization refuses fails startup with the error
    of the normalization, before any channel is touched: the file system
    and its log are as they were, while the task id is in the store. *)
Theorem startup_refused_req w doc d reqs e :
  request (store w) = Some doc -> json_loads doc = Some (JObj d) ->
  dict_get "req" d = Some reqs ->
  (forall v, (normalize_reqs env reqs v).1 = Raise e) ->
  exists w',
    _startup env self w = (Raise e, w') /\
    fs w' = fs w /\ syslog w' = syslog w /\
    store w' = with_task_id env d w.
Proof.
  intros Hr Hl Hreq Hbad.
  rewrite (startup_object w doc d Hr Hl).
  set (ws := with_store (after_id d w) (with_task_id env d w)).
  rewrite (startup_tail_with_req _ reqs ws)
    by (now rewrite dict_get_set_ne by discriminate).
  pose proof (keeps_normalize_reqs fs (fun _ => eq_refl) env reqs ws) as Kf.
  pose proof (keeps_normalize_reqs syslog (fun _ => eq_refl) env reqs ws) as Kl.
  pose proof (keeps_normalize_reqs store (fun _ => eq_refl) env reqs ws) as Ks.
  specialize (Hbad ws). rewrite bind_run.
  destruct (normalize_reqs env reqs ws) as [[out|e0] wn]; simpl in *;
    [discriminate|].
  injection Hbad as ->. exists wn. split; [reflexivity|].
  rewrite Kf, Kl, Ks. subst ws. simpl.
  destruct (after_id_parts d w) as (F & _ & L). auto.
Qed.

End Cases.

Lemma startup_parse_failure_atomic_witness :
  let w := Scenario.clean_world (Garbled "{") in
  json_loads (Garbled "{") = None /\
  _startup Scenario.env Scenario.self w = (Raise ParseError, w).
Proof.
  intros w. split; [reflexivity|].
  apply startup_parse_failure_atomic. right.
  exists (Garbled "{"). split; reflexivity.
Defined.

Lemma keeps_store_resident_copy : keeps store (copy_shim (stack resident_self)).
Proof. intros v. reflexivity. Qed.

Lemma startup_records_task_id_witness :
  let payload := [("id", JInt 5); ("req", JObj [("params", JArr [])])] in
  let w := Scenario.clean_world (Document (JObj payload)) in
  (_startup Scenario.env resident_self w).1 = Raise (KeyError "method") /\
  task_id (store (_startup Scenario.env resident_self w).2) = Some (JStr "5").
Proof.
  intros payload w. split; [vm_compute; reflexivity|].
  rewrite (startup_records_task_id Scenario.env resident_self w
             (Document (JObj payload)) payload keeps_store_resident_copy
             eq_refl eq_refl).
  reflexivity.
Defined.

Lemma recreate_channels_fresh_witness :
  let w := Scenario.stale_world (Document JNull) in
  removable w REQ_FIFO /\ removable w RESP_FIFO /\
  exists w',
    recreate_channels w = (Ok tt, w') /\
    fs w' !! REQ_FIFO = Some Fifo /\ fs w' !! RESP_FIFO = Some Fifo /\
    fs w' !! ".stackhut.log" = Some File.
Proof.
  intros w.
  assert (R1 : removable w REQ_FIFO) by (vm_compute; discriminate).
  assert (R2 : removable w RESP_FIFO) by (vm_compute; discriminate).
  split; [exact R1|]. split; [exact R2|].
  destruct (proj1 (recreate_channels_fresh w) R1 R2)
    as (w' & E & C1 & C2 & Hother & _).
  exists w'. split; [exact E|]. split; [exact C1|]. split; [exact C2|].
  rewrite Hother by discriminate. reflexivity.
Defined.


Lemma startup_refused_req_witness :
  let reqs := JArr [JObj [("method", JStr "echo")]; JInt 3] in
  let payload := [("req", reqs)] in
  let w := Scenario.clean_world (Document (JObj payload)) in
  (forall v, (normalize_reqs Scenario.env reqs v).1 = Raise TypeError) /\
  exists w', _startup Scenario.env Scenario.self w = (Raise TypeError, w') /\
             fs w' = fs w /\ syslog w' = syslog w.
Proof.
  intros reqs payload w.
  assert (Hbad : forall v,
             (normalize_reqs Scenario.env reqs v).1 = Raise TypeError).
  { intros v. unfold normalize_reqs, reqs. rewrite bind_run.
    assert (G : (mapM (_make_json_rpc Scenario.env)
                   ([JObj [("method", JStr "echo")]] ++ JInt 3 :: [])%list v).1
                = Raise TypeError).
    { apply mapM_first_refusal.
      - repeat constructor. eexists _, _. split; reflexivity.
      - intros v0. apply make_json_rpc_not_object. discriminate. }
    cbn [app] in G.
    destruct (mapM (_make_json_rpc Scenario.env) _ v) as [[ys|e0] v1];
      simpl in G; [discriminate|]. now injection G as ->. }
  split; [exact Hbad|].
  destruct (startup_refused_req Scenario.env Scenario.self w
              (Document (JObj payload)) payload reqs TypeError
              eq_refl eq_refl eq_refl Hbad) as (w' & E & F & L & _).
  exists w'. auto.
Defined.

End StartupMore.

(* ===================================================================== *)
(** * More on the External Call Forwarder *)
(* ===================================================================== *)

Module ForwarderMore.
Import PyValue Effects RunCommand Properties Coverage PyFacts EffectFacts.
Import Frames.

Section RunExtMore.
Variable env : Env.
Variable self : RunCmd.
Variables (method : string) (params : json) (req_id : string).

(** X11: a response that is not valid JSON ends the call in the
    [ValueError] of [json.loads], whatever the exit status: the response
    is parsed on line 121, before [p.wait()], so a child that crashed and
    left a broken response is not reported as [NonZeroExitError]. *)
Theorem run_ext_garbled_reply w w1 :
  handshake env req_id w = (Ok tt, w1) ->
  json_loads (reply (child env self method params req_id)) = None ->
  _run_ext env self method params req_id w = (Raise ValueError, w1).
Proof.
  intros Hh Hl.
  rewrite (Forwarder.run_ext_after_handshake env self method params req_id
             w w1 Hh).
  now rewrite Hl.
Qed.

Lemma check_response_not_object p resp w :
  returncode p = 0 -> (forall d, resp <> JObj d) ->
  check_response env method p resp w = (Raise TypeError, w).
Proof.
  intros Hrc Hresp. unfold check_response. rewrite Hrc. cbn [Z.eqb negb].
  mrun. destruct resp as [| b | n | s | l | d]; try reflexivity.
  - destruct (str_contains "error" s); reflexivity.
  - destruct (existsb _ l); reflexivity.
  - now destruct (Hresp d).
Qed.

(** X12: after a zero exit status, a response that is valid JSON but not
    an object (a list, a string, a number, [null]) ends the call in
    [TypeError]: the [in] test or the subscription on lines 131-138
    presume a dict. *)
Theorem run_ext_reply_not_object w w1 resp :
  handshake env req_id w = (Ok tt, w1) ->
  json_loads (reply (child env self method params req_id)) = Some resp ->
  (forall d, resp <> JObj d) ->
  exit_status (child env self method params req_id) = 0 ->
  _run_ext env self method params req_id w = (Raise TypeError, w1).
Proof.
  intros Hh Hl Hresp Hrc.
  rewrite (Forwarder.run_ext_after_handshake env self method params req_id
             w w1 Hh), Hl.
  now apply check_response_not_object.
Qed.

Lemma keeps_check_response {X : Type} (part : World -> X) p resp :
  keeps part (check_response env method p resp).
Proof. unfold check_response. keeps_all. Qed.

Lemma keeps_run_ext {X : Type} (part : World -> X) :
  (forall w f c, part (with_fs w f c) = part w) ->
  keeps part (_run_ext env self method params req_id).
Proof.
  intros Hfs. unfold _run_ext, ensure_req_path.
  pose proof (keeps_os_mkdir part Hfs).
  pose proof (keeps_open_w part Hfs).
  pose proof (keeps_check_response part).
  keeps_all. destruct (json_loads _); keeps_all.
Qed.

(** X13: a nested call leaves the store and the entropy alone.  Return
    or failure, [_run_ext] records nothing in the store (no task id, no
    response, no file) and draws no identifier. *)
Theorem run_ext_keeps_store w :
  store (_run_ext env self method params req_id w).2 = store w /\
  draws (_run_ext env self method params req_id w).2 = draws w.
Proof.
  split.
  - apply (keeps_run_ext store). reflexivity.
  - apply (keeps_run_ext draws). reflexivity.
Qed.




End RunExtMore.

Lemma run_ext_garbled_reply_witness :
  let c := child faulty_env Scenario.self "Default.garbled" (JArr []) "task" in
  handshake faulty_env "task" Scenario.ready_world
  = (Ok tt, (handshake faulty_env "task" Scenario.ready_world).2) /\
  json_loads (reply c) = None /\ exit_status c = 3 /\
  (_run_ext faulty_env Scenario.self "Default.garbled" (JArr []) "task"
     Scenario.ready_world).1 = Raise ValueError.
Proof.
  intros c.
  assert (Hh : handshake faulty_env "task" Scenario.ready_world
               = (Ok tt, (handshake faulty_env "task" Scenario.ready_world).2))
    by (vm_compute; reflexivity).
  split; [exact Hh|]. split; [reflexivity|]. split; [reflexivity|].
  rewrite (run_ext_garbled_reply faulty_env Scenario.self "Default.garbled"
             (JArr []) "task" _ _ Hh eq_refl).
  reflexivity.
Defined.

Lemma run_ext_reply_not_object_witness :
  let c := child faulty_env Scenario.self "Default.list" (JArr []) "task" in
  handshake faulty_env "task" Scenario.ready_world
  = (Ok tt, (handshake faulty_env "task" Scenario.ready_world).2) /\
  json_loads (reply c) = Some (JArr [JStr "ok"]) /\ exit_status c = 0 /\
  (_run_ext faulty_env Scenario.self "Default.list" (JArr []) "task"
     Scenario.ready_world).1 = Raise TypeError.
Proof.
  intros c.
  assert (Hh : handshake faulty_env "task" Scenario.ready_world
               = (Ok tt, (handshake faulty_env "task" Scenario.ready_world).2))
    by (vm_compute; reflexivity).
  split; [exact Hh|]. split; [reflexivity|]. split; [reflexivity|].
  rewrite (run_ext_reply_not_object faulty_env Scenario.self "Default.list"
             (JArr []) "task" _ _ (JArr [JStr "ok"]) Hh eq_refl
             ltac:(discriminate) eq_refl).
  reflexivity.
Defined.






End ForwarderMore.

(* ===================================================================== *)
(** * The run as a whole *)
(* ===================================================================== *)

Module RunMore.
Import PyValue Effects RunCommand Properties Coverage PyFacts EffectFacts.
Import Startup Frames.

Section Run.
Variable env : Env.
Variable self : RunCmd.

(** [run], outcome by outcome: the [try] block, the handler, the
    [finally] block, [return 0]. *)
Lemma run_outcome w :
  run env self w
  = match cleanup env self (service env self w).2 with
    | (Ok _, w2) =>
        (match handled (service env self w).1 with
         | Ok _ => Ok 0
         | Raise e => Raise e
         end, w2)
    | (Raise e, w2) => (Raise e, w2)
    end.
Proof.
  unfold run. rewrite bind_run. unfold try_finally, try_except.
  change (reqs ← _startup env self;
          resp ← server_call self reqs (_run_ext env self);
          _shutdown env resp) with (service env self).
  destruct (service env self w) as [[[]|e] w1]; cbn [fst snd handled].
  - destruct (cleanup env self w1) as [[[]|e] w2]; reflexivity.
  - destruct (is_Exception e); unfold exit, raise;
      destruct (cleanup env self w1) as [[[]|e'] w2]; reflexivity.
Qed.

Lemma os_remove_ok p w w' :
  os_remove p w = (Ok tt, w') -> fs w' = delete p (fs w).
Proof.
  unfold os_remove. destruct (fs w !! p) as [[]|]; try discriminate;
    now intros [= <-].
Qed.

(** Once the [finally] block has returned, the three paths are gone. *)
Lemma cleanup_returns_clean w w' :
  cleanup env self w = (Ok tt, w') ->
  fs w' !! REQ_FIFO = None /\ fs w' !! RESP_FIFO = None /\
  fs w' !! LOGFILE env = None.
Proof.
  unfold cleanup. rewrite bind_run.
  destruct (del_shim (stack self) w) as [[[]|e] w1]; [|discriminate].
  rewrite bind_run.
  destruct (os_remove REQ_FIFO w1) as [[[]|e] w2] eqn:E1; [|discriminate].
  rewrite bind_run.
  destruct (os_remove RESP_FIFO w2) as [[[]|e] w3] eqn:E2; [|discriminate].
  intros E3. apply os_remove_ok in E1, E2, E3. rewrite E3, E2, E1.
  split; [|split].
  - apply lookup_delete_None. right. apply lookup_delete_None. right.
    apply lookup_delete_eq.
  - apply lookup_delete_None. right. apply lookup_delete_eq.
  - apply lookup_delete_eq.
Qed.

(** X17: when [run] returns, it returns 0, the [try] block went through
    startup, dispatch and shutdown without an exception, and neither
    channel nor the log file is left on disk. *)
Theorem run_returns_zero w z w' :
  run env self w = (Ok z, w') ->
  z = 0 /\
  (exists w1, service env self w = (Ok tt, w1)) /\
  fs w' !! REQ_FIFO = None /\ fs w' !! RESP_FIFO = None /\
  fs w' !! LOGFILE env = None.
Proof.
  rewrite run_outcome.
  destruct (service env self w) as [r w1] eqn:Es. cbn [fst snd].
  destruct (cleanup env self w1) as [[[]|e] w2] eqn:Ec; [|discriminate].
  destruct r as [[]|e]; cbn [handled].
  - intros [= <- <-]. split; [reflexivity|]. split; [eauto|].
    exact (cleanup_returns_clean w1 w2 Ec).
  - destruct (is_Exception e); discriminate.
Qed.

(** X18: an exception of the [try] block does not leave [run] as it is.
    Whatever [Exception] startup, dispatch or shutdown raise, the run
    ends in [SystemExit] with status 1 once the [finally] block has
    returned, and by then the three paths are gone. *)
Theorem run_failure_exits_one w e w1 w2 :
  service env self w = (Raise e, w1) -> is_Exception e = true ->
  cleanup env self w1 = (Ok tt, w2) ->
  run env self w = (Raise (SystemExit 1), w2) /\
  fs w2 !! REQ_FIFO = None /\ fs w2 !! RESP_FIFO = None /\
  fs w2 !! LOGFILE env = None.
Proof.
  intros Es He Ec. rewrite run_outcome, Es. cbn [fst snd handled].
  rewrite Ec, He. split; [reflexivity|].
  exact (cleanup_returns_clean w1 w2 Ec).
Qed.

(** X19: [run] ends in an [Exception] only if the [finally] block raised
    it.  An exception class that the [finally] block never raises never
    comes out of [run]: the handler has turned it into [SystemExit]. *)
Theorem run_never_raises e :
  is_Exception e = true ->
  never_raises e (cleanup env self) -> never_raises e (run env self).
Proof.
  intros He Hc w w' H. rewrite run_outcome in H.
  destruct (service env self w) as [r w1]. cbn [fst snd] in H.
  destruct (cleanup env self w1) as [[[]|e'] w2] eqn:Ec.
  - destruct r as [[]|e0]; cbn [handled] in H; [discriminate|].
    destruct (is_Exception e0) eqn:E0.
    + injection H as <- _. discriminate.
    + injection H as -> _. congruence.
  - injection H as E1 E2. subst. exact (Hc w1 _ Ec).
Qed.

(** ** What reaches the store *)

Lemma run_world w : (run env self w).2 = (cleanup env self (service env self w).2).2.
Proof.
  rewrite run_outcome.
  destruct (cleanup env self (service env self w).2) as [[[]|e] w2]; reflexivity.
Qed.

Lemma keeps_through_store {A X : Type} (g : Store -> X) (m : M A) :
  keeps store m -> keeps (fun w => g (store w)) m.
Proof. intros H w. now rewrite H. Qed.

Lemma keeps_cleanup {X : Type} (g : Store -> X) :
  keeps store (del_shim (stack self)) ->
  keeps (fun w => g (store w)) (cleanup env self).
Proof.
  intros Hd. apply keeps_through_store. unfold cleanup.
  pose proof (keeps_os_remove store (fun _ _ _ => eq_refl)).
  keeps_all.
Qed.

Lemma keeps_try_except_all {A X : Type} (part : World -> X)
    (body handler : M A) :
  keeps part body -> keeps part handler ->
  keeps part (try_except_all body handler).
Proof.
  intros Hb Hh w. unfold try_except_all. specialize (Hb w).
  destruct (body w) as [[a|e] w1]; simpl in *; [exact Hb|].
  now rewrite Hh.
Qed.

(** Startup writes the task id into the store and nothing else. *)
Lemma keeps_startup {X : Type} (g : Store -> X) :
  (forall s id, g {| request := request s; task_id := id;
                     response := response s; files := files s |} = g s) ->
  keeps store (copy_shim (stack self)) ->
  keeps (fun w => g (store w)) (_startup env self).
Proof.
  intros Hg Hshim. unfold _startup.
  pose proof (keeps_gen_id (fun w => g (store w)) (fun _ => eq_refl) env).
  pose proof (keeps_normalize_reqs (fun w => g (store w)) (fun _ => eq_refl) env).
  pose proof (keeps_remove_if_exists (fun w => g (store w))
                (fun _ _ _ => eq_refl)).
  pose proof (keeps_os_mkfifo (fun w => g (store w)) (fun _ _ _ => eq_refl)).
  pose proof (keeps_through_store g _ Hshim).
  apply keeps_bind.
  { apply keeps_try_except_all; [|apply keeps_raise].
    apply keeps_bind.
    - apply keeps_pure. intros w. unfold store_get_request.
      destruct (request (store w)); reflexivity.
    - intros d. destruct (json_loads d); keeps_all. }
  intros j. apply keeps_bind; [auto|]. intros j'.
  apply keeps_bind; [auto with keeps|]. intros id.
  apply keeps_bind.
  { intros w. cbn [store_set_task_id snd with_store store]. apply Hg. }
  intros []. keeps_all.
Qed.

(** X20: a run whose startup fails persists nothing.  With a stack that
    leaves the store alone, the response and the files of the store are
    after the run what they were before it; [_shutdown] is the only
    writer of both, and it was not reached. *)
Theorem run_startup_failure_persists_nothing w e :
  keeps store (copy_shim (stack self)) ->
  keeps store (del_shim (stack self)) ->
  (_startup env self w).1 = Raise e ->
  response (store (run env self w).2) = response (store w) /\
  files (store (run env self w).2) = files (store w).
Proof.
  intros Hc Hd Hs. rewrite run_world.
  assert (Ew : (service env self w).2 = (_startup env self w).2).
  { unfold service. rewrite bind_run.
    destruct (_startup env self w) as [[reqs|e0] w1]; [discriminate|].
    reflexivity. }
  rewrite Ew. split.
  - rewrite (keeps_cleanup response Hd).
    apply (keeps_startup response); auto.
  - rewrite (keeps_cleanup files Hd).
    apply (keeps_startup files); auto.
Qed.

(** X21: a run that goes through persists the dispatcher's result.  When
    startup and the dispatcher return and the [finally] block returns
    after [_shutdown], [run] returns 0, the store holds the serialized
    result as response and has received the log file, last of its files;
    the stack's [del_shim] is taken to leave the store alone. *)
Theorem run_success_persists w reqs w1 resp w2 w4 :
  _startup env self w = (Ok reqs, w1) ->
  server_call self reqs (_run_ext env self) w1 = (Ok resp, w2) ->
  keeps store (del_shim (stack self)) ->
  cleanup env self (_shutdown env resp w2).2 = (Ok tt, w4) ->
  run env self w = (Ok 0, w4) /\
  response (store w4) = Some (json_dumps resp) /\
  files (store w4) = (files (store w2) ++ [LOGFILE env])%list.
Proof.
  intros Es Ed Hd Ec.
  assert (Esv : service env self w = (Ok tt, (_shutdown env resp w2).2)).
  { unfold service. now rewrite bind_run, Es, bind_run, Ed. }
  split.
  - rewrite run_outcome, Esv. cbn [fst snd handled]. now rewrite Ec.
  - pose proof (keeps_cleanup response Hd (_shutdown env resp w2).2) as Kr.
    pose proof (keeps_cleanup files Hd (_shutdown env resp w2).2) as Kf.
    rewrite Ec in Kr, Kf. cbn [snd] in Kr, Kf. rewrite Kr, Kf.
    split; reflexivity.
Qed.

End Run.

Lemma keeps_store_resident_del : keeps store (del_shim (stack resident_self)).
Proof. intros v. reflexivity. Qed.

Lemma run_returns_zero_witness :
  let w := Scenario.clean_world (Document Scenario.echo_request) in
  exists w',
    run Scenario.env resident_self w = (Ok 0, w') /\
    fs w' !! REQ_FIFO = None /\ fs w' !! RESP_FIFO = None /\
    fs w' !! LOGFILE Scenario.env = None.
Proof.
  intros w.
  assert (E : run Scenario.env resident_self w
              = (Ok 0, (run Scenario.env resident_self w).2))
    by (vm_compute; reflexivity).
  exists (run Scenario.env resident_self w).2. split; [exact E|].
  destruct (run_returns_zero Scenario.env resident_self w 0 _ E)
    as (_ & _ & H).
  exact H.
Defined.

Lemma run_failure_exits_one_witness :
  let w := Scenario.ready_world in
  service Scenario.env Scenario.self w
  = (Raise ParseError, (service Scenario.env Scenario.self w).2) /\
  is_Exception ParseError = true /\
  (run Scenario.env Scenario.self w).1 = Raise (SystemExit 1) /\
  fs (run Scenario.env Scenario.self w).2 !! REQ_FIFO = None.
Proof.
  intros w.
  assert (Es : service Scenario.env Scenario.self w
               = (Raise ParseError, (service Scenario.env Scenario.self w).2))
    by (vm_compute; reflexivity).
  assert (Ec : cleanup Scenario.env Scenario.self
                 (service Scenario.env Scenario.self w).2
               = (Ok tt, (cleanup Scenario.env Scenario.self
                            (service Scenario.env Scenario.self w).2).2))
    by (vm_compute; reflexivity).
  split; [exact Es|]. split; [reflexivity|].
  destruct (run_failure_exits_one Scenario.env Scenario.self w ParseError
              _ _ Es eq_refl Ec) as (Er & H1 & _).
  rewrite Er. split; [reflexivity | exact H1].
Defined.

Lemma cleanup_resident_no_parse_error :
  never_raises ParseError (cleanup Scenario.env resident_self).
Proof.
  unfold cleanup. apply never_raises_bind.
  - intros v v' H. discriminate.
  - intros []. repeat (apply never_raises_bind;
                       [apply os_remove_no_parse_error | intros []]).
    apply os_remove_no_parse_error.
Qed.

Lemma run_never_raises_witness :
  is_Exception ParseError = true /\
  never_raises ParseError (cleanup Scenario.env resident_self) /\
  forall w', run Scenario.env resident_self
               (Scenario.clean_world (Document Scenario.no_req_request))
             <> (Raise ParseError, w').
Proof.
  split; [reflexivity|]. split; [exact cleanup_resident_no_parse_error|].
  intros w'.
  exact (run_never_raises Scenario.env resident_self ParseError eq_refl
           cleanup_resident_no_parse_error _ w').
Defined.

Lemma run_startup_failure_persists_nothing_witness :
  let w := Scenario.clean_world (Document Scenario.no_req_request) in
  keeps store (copy_shim (stack resident_self)) /\
  keeps store (del_shim (stack resident_self)) /\
  (_startup Scenario.env resident_self w).1 = Raise ParseError /\
  response (store (run Scenario.env resident_self w).2) = None.
Proof.
  intros w.
  split; [exact StartupMore.keeps_store_resident_copy|].
  split; [exact keeps_store_resident_del|].
  assert (Es : (_startup Scenario.env resident_self w).1 = Raise ParseError)
    by (vm_compute; reflexivity).
  split; [exact Es|].
  destruct (run_startup_failure_persists_nothing Scenario.env resident_self w
              ParseError StartupMore.keeps_store_resident_copy keeps_store_resident_del Es)
    as [Hr _].
  rewrite Hr. reflexivity.
Defined.

Lemma run_success_persists_witness :
  let w := Scenario.clean_world (Document Scenario.echo_request) in
  exists resp w4,
    run Scenario.env resident_self w = (Ok 0, w4) /\
    response (store w4) = Some (json_dumps resp) /\
    field "result" resp = Some (JStr "hi").
Proof.
  intros w.
  let v := eval vm_compute in (_startup Scenario.env resident_self w) in
  assert (Es : _startup Scenario.env resident_self w = v)
    by (vm_compute; reflexivity).
  match type of Es with
  | _ = (Ok ?reqs, ?w1) =>
      let v := eval vm_compute in
        (server_call resident_self reqs (_run_ext Scenario.env resident_self) w1)
      in
      assert (Ed : server_call resident_self reqs
                     (_run_ext Scenario.env resident_self) w1 = v)
        by (vm_compute; reflexivity)
  end.
  match type of Ed with
  | _ = (Ok ?resp, ?w2) =>
      let v := eval vm_compute in
        (cleanup Scenario.env resident_self (_shutdown Scenario.env resp w2).2)
      in
      assert (Ec : cleanup Scenario.env resident_self
                     (_shutdown Scenario.env resp w2).2 = v)
        by (vm_compute; reflexivity);
      match type of Ec with
      | _ = (Ok tt, ?w4) =>
          destruct (run_success_persists Scenario.env resident_self w _ _ resp
                      w2 w4 Es Ed keeps_store_resident_del Ec)
            as (Er & Hresp & _);
          exists resp, w4
      end
  end.
  split; [exact Er|]. split; [exact Hresp | reflexivity].
Defined.

End RunMore.
